(** * SageMaker Flow Definition resource: expand/flatten, validators, CRUD

    A shallow embedding of [aws/resource_aws_sagemaker_flow_definition.go].
    Go values of type [interface{}] are a tagged union, maps are [gmap]s,
    slices keep the difference between [nil] and empty, type assertions
    without the comma-ok form panic, and the CRUD functions thread the
    resource data, the remote service and the log of issued API calls. *)

From Stdlib Require Import ZArith Ascii String List Bool Lia.
From stdpp Require Import base option list strings gmap.

Local Open Scope string_scope.
Set Warnings "-register-all".

(** ** Go values *)

(** A Go slice: [nil] and the empty, allocated slice are different values
    with the same length. *)
Inductive slice (A : Type) : Type :=
  | NilSlice
  | Slice (elems : list A).
Arguments NilSlice {A}.
Arguments Slice {A} elems.

Definition slice_elems {A} (s : slice A) : list A :=
  match s with NilSlice => [] | Slice l => l end.

(** Go's [len]. *)
Definition len {A} (s : slice A) : nat := length (slice_elems s).

Definition slice_is_nil {A} (s : slice A) : bool :=
  match s with NilSlice => true | Slice _ => false end.

Definition slice_map {A B} (f : A -> B) (s : slice A) : slice B :=
  match s with NilSlice => NilSlice | Slice l => Slice (List.map f l) end.

(** The dynamic values an [interface{}] of this resource can hold. [VInt] is
    Go's [int], [VInt64] is [int64]: the two are different dynamic types, and
    a type assertion to one fails on the other. [VSet] is a [*schema.Set] of
    strings, [VList] a [[]interface{}], [VMap] a [map[string]interface{}],
    [VMaps] a [[]map[string]interface{}], which is not a [[]interface{}]. *)
Inductive value : Type :=
  | VNil
  | VString (s : string)
  | VInt (n : Z)
  | VInt64 (n : Z)
  | VSet (s : gset string)
  | VList (l : slice value)
  | VMap (m : gmap string value)
  | VMaps (l : slice (gmap string value)).

(** Indexing a Go map: a missing key yields the nil interface. *)
Definition index (m : gmap string value) (k : string) : value :=
  default VNil (m !! k).

Definition is_nil (v : value) : bool :=
  match v with VNil => true | _ => false end.

(** ** Panics *)

(** A Go call either returns or panics. *)
Inductive result (A : Type) : Type :=
  | Ok (a : A)
  | Panic.
Arguments Ok {A} a.
Arguments Panic {A}.

Definition rbind {A B} (r : result A) (k : A -> result B) : result B :=
  match r with Ok a => k a | Panic => Panic end.

Notation "'let!' x ':=' r 'in' k" := (rbind r (fun x => k))
  (at level 10, x name, r at level 100, k at level 200).

(** Type assertions [v.(T)] in their panicking form. *)
Definition assert_string (v : value) : result string :=
  match v with VString s => Ok s | _ => Panic end.

Definition assert_int (v : value) : result Z :=
  match v with VInt n => Ok n | _ => Panic end.

Definition assert_list (v : value) : result (slice value) :=
  match v with VList l => Ok l | _ => Panic end.

Definition assert_map (v : value) : result (gmap string value) :=
  match v with VMap m => Ok m | _ => Panic end.

(** Type assertions [v, ok := x.(T)] in their comma-ok form. *)
Definition string_ok (v : value) : option string :=
  match v with VString s => Some s | _ => None end.

Definition int_ok (v : value) : option Z :=
  match v with VInt n => Some n | _ => None end.

Definition set_ok (v : value) : option (gset string) :=
  match v with VSet s => Some s | _ => None end.

(** [l[0]] of a slice the caller has checked to be non-empty. *)
Definition first (l : slice value) : value :=
  match slice_elems l with v :: _ => v | [] => VNil end.

(** The guard [len(l) == 0 || l[0] == nil] every expand function opens with. *)
Definition empty_or_nil (l : slice value) : bool :=
  (len l =? 0)%nat || is_nil (first l).

(** The maps of a [[]map[string]interface{}] as the elements of a
    [[]interface{}]: what a flatten function returns, in the type an expand
    function takes. *)
Definition as_interfaces (s : slice (gmap string value)) : slice value :=
  slice_map VMap s.

(** ** SDK structs

    Pointer fields are [option]s, [None] being the nil pointer. *)

(** [aws.JSONValue] is [map[string]interface{}]; [None] is the nil map. *)
Definition JSONValue : Type := option (gmap string value).

Record HumanLoopActivationConditionsConfig := {
  HumanLoopActivationConditions : JSONValue
}.

Record HumanLoopActivationConfig := {
  HumanLoopActivationConditionsConfig_ : option HumanLoopActivationConditionsConfig
}.

(** ** Errors

    Go's [error] values as far as the resource tells them apart: an
    [awserr.Error] of the SDK with its code and message, the plugin SDK's
    [*resource.NotFoundError], any other error, and [fmt.Errorf] with the
    verb [%w], which wraps the error it formats. A nil error is [None]. *)
Inductive error : Type :=
  | AwsError (code message : string)
  | NotFoundError (message : string)
  | ErrorString (text : string)
  | Errorf (text : string) (err : error).

(** [errors.As] with an [awserr.Error] target: the first error of the chain
    that is one. *)
Fixpoint as_awserr (e : error) : option (string * string) :=
  match e with
  | AwsError code message => Some (code, message)
  | Errorf _ inner => as_awserr inner
  | NotFoundError _ | ErrorString _ => None
  end.

(** [errors.As] with a [*resource.NotFoundError] target. *)
Fixpoint as_not_found (e : error) : bool :=
  match e with
  | NotFoundError _ => true
  | Errorf _ inner => as_not_found inner
  | AwsError _ _ | ErrorString _ => false
  end.

(** [strings.Contains] *)
Fixpoint Contains (s substr : string) : bool :=
  String.prefix substr s ||
  match s with
  | EmptyString => false
  | String _ rest => Contains rest substr
  end.

(** [tfawserr.ErrMessageContains] of [hashicorp/aws-sdk-go-base]. *)
Definition ErrMessageContains (err : option error) (code message : string)
    : bool :=
  match err with
  | None => false
  | Some e =>
      match as_awserr e with
      | Some (c, m) => String.eqb c code && Contains m message
      | None => false
      end
  end.

(** Modelled from the spec: [tfresource.NotFound] is a helper of this
    repository that is not part of the sources at hand. It reports whether
    a lookup error says that the resource was not found, which the plugin
    SDK expresses with [*resource.NotFoundError]; a nil error does not. *)
Definition NotFound (err : option error) : bool :=
  match err with
  | None => false
  | Some e => as_not_found e
  end.

Section JSON.

(** The two codec functions of the AWS SDK's [private/protocol] package, at
    the escape mode [protocol.NoEscape] the resource passes. Each returns a
    value together with an error. *)
Variable DecodeJSONValue : string -> JSONValue * option error.
Variable EncodeJSONValue : JSONValue -> string * option error.

(** [expandSagemakerFlowDefinitionHumanLoopActivationConditionsConfig] *)
Definition expandSagemakerFlowDefinitionHumanLoopActivationConditionsConfig
    (l : slice value) : result (option HumanLoopActivationConditionsConfig) :=
  if empty_or_nil l then Ok None
  else
    let! m := assert_map (first l) in
    let! s := assert_string (index m "human_loop_activation_conditions") in
    let '(v, _) := DecodeJSONValue s in
    Ok (Some {| HumanLoopActivationConditions := v |}).

(** [flattenSagemakerFlowDefinitionHumanLoopActivationConditionsConfig] *)
Definition flattenSagemakerFlowDefinitionHumanLoopActivationConditionsConfig
    (config : option HumanLoopActivationConditionsConfig)
    : slice (gmap string value) :=
  match config with
  | None => Slice []
  | Some c =>
      let '(v, _) := EncodeJSONValue (HumanLoopActivationConditions c) in
      Slice [ {[ "human_loop_activation_conditions" := VString v ]} ]
  end.

(** [expandSagemakerFlowDefinitionHumanLoopActivationConfig] *)
Definition expandSagemakerFlowDefinitionHumanLoopActivationConfig
    (l : slice value) : result (option HumanLoopActivationConfig) :=
  if empty_or_nil l then Ok None
  else
    let! m := assert_map (first l) in
    let! inner := assert_list (index m "human_loop_activation_conditions_config") in
    let! c := expandSagemakerFlowDefinitionHumanLoopActivationConditionsConfig inner in
    Ok (Some {| HumanLoopActivationConditionsConfig_ := c |}).

(** [flattenSagemakerFlowDefinitionHumanLoopActivationConfig] *)
Definition flattenSagemakerFlowDefinitionHumanLoopActivationConfig
    (config : option HumanLoopActivationConfig) : slice (gmap string value) :=
  match config with
  | None => Slice []
  | Some c =>
      Slice [ {[ "human_loop_activation_conditions_config" :=
                 VMaps
                   (flattenSagemakerFlowDefinitionHumanLoopActivationConditionsConfig
                      (HumanLoopActivationConditionsConfig_ c)) ]} ]
  end.

End JSON.

Record FlowDefinitionOutputConfig := {
  KmsKeyId : option string;
  S3OutputPath : option string
}.

Record HumanLoopRequestSource := {
  AwsManagedHumanLoopRequestSource : option string
}.

Record HumanLoopConfig := {
  HumanTaskUiArn : option string;
  TaskAvailabilityLifetimeInSeconds : option Z;
  TaskCount : option Z;
  TaskDescription : option string;
  TaskKeywords : slice (option string);
  TaskTimeLimitInSeconds : option Z;
  TaskTitle : option string;
  WorkteamArn : option string
}.

(** [aws.StringValue] and [aws.Int64Value]: the pointee, or the zero value
    for a nil pointer. *)
Definition StringValue (p : option string) : string := default "" p.
Definition Int64Value (p : option Z) : Z := default 0%Z p.

(** Modelled from the spec: [expandStringSet] and [flattenStringSet] are
    helpers of this repository that are not part of the sources at hand.
    They are the string-set instance of the glossary's Expand/Flatten pair:
    the first lists the members of the set as an allocated slice of string
    pointers, the second builds the set of the strings a slice points to. *)
Definition expandStringSet (s : gset string) : slice (option string) :=
  Slice (List.map Some (elements s)).

Definition flattenStringSet (l : slice (option string)) : gset string :=
  list_to_set (List.map StringValue (slice_elems l)).

(** [expandSagemakerFlowDefinitionOutputConfig] *)
Definition expandSagemakerFlowDefinitionOutputConfig
    (l : slice value) : result (option FlowDefinitionOutputConfig) :=
  if empty_or_nil l then Ok None
  else
    let! m := assert_map (first l) in
    let! path := assert_string (index m "s3_output_path") in
    let config := {| KmsKeyId := None; S3OutputPath := Some path |} in
    Ok (Some
      match string_ok (index m "kms_key_id") with
      | Some v =>
          if negb (String.eqb v "")
          then {| KmsKeyId := Some v; S3OutputPath := S3OutputPath config |}
          else config
      | None => config
      end).

(** [flattenSagemakerFlowDefinitionOutputConfig] *)
Definition flattenSagemakerFlowDefinitionOutputConfig
    (config : option FlowDefinitionOutputConfig) : slice (gmap string value) :=
  match config with
  | None => Slice []
  | Some c =>
      Slice [ {[ "kms_key_id" := VString (StringValue (KmsKeyId c));
                 "s3_output_path" := VString (StringValue (S3OutputPath c)) ]} ]
  end.

(** [expandSagemakerFlowDefinitionHumanLoopRequestSource] *)
Definition expandSagemakerFlowDefinitionHumanLoopRequestSource
    (l : slice value) : result (option HumanLoopRequestSource) :=
  if empty_or_nil l then Ok None
  else
    let! m := assert_map (first l) in
    let! src := assert_string (index m "aws_managed_human_loop_request_source") in
    Ok (Some {| AwsManagedHumanLoopRequestSource := Some src |}).

(** [flattenSagemakerFlowDefinitionHumanLoopRequestSource] *)
Definition flattenSagemakerFlowDefinitionHumanLoopRequestSource
    (config : option HumanLoopRequestSource) : slice (gmap string value) :=
  match config with
  | None => Slice []
  | Some c =>
      Slice [ {[ "aws_managed_human_loop_request_source" :=
                 VString (StringValue (AwsManagedHumanLoopRequestSource c)) ]} ]
  end.

(** The three conditional assignments that follow the struct literal in
    [expandSagemakerFlowDefinitionHumanLoopConfig], one function each. *)
Definition with_TaskKeywords (m : gmap string value) (c : HumanLoopConfig)
    : HumanLoopConfig :=
  match set_ok (index m "task_keywords") with
  | Some v =>
      if (0 <? size v)%nat
      then {| HumanTaskUiArn := HumanTaskUiArn c;
              TaskAvailabilityLifetimeInSeconds := TaskAvailabilityLifetimeInSeconds c;
              TaskCount := TaskCount c;
              TaskDescription := TaskDescription c;
              TaskKeywords := expandStringSet v;
              TaskTimeLimitInSeconds := TaskTimeLimitInSeconds c;
              TaskTitle := TaskTitle c;
              WorkteamArn := WorkteamArn c |}
      else c
  | None => c
  end.

Definition with_TaskAvailabilityLifetimeInSeconds (m : gmap string value)
    (c : HumanLoopConfig) : HumanLoopConfig :=
  match int_ok (index m "task_availability_lifetime_in_seconds") with
  | Some v =>
      {| HumanTaskUiArn := HumanTaskUiArn c;
         TaskAvailabilityLifetimeInSeconds := Some v;
         TaskCount := TaskCount c;
         TaskDescription := TaskDescription c;
         TaskKeywords := TaskKeywords c;
         TaskTimeLimitInSeconds := TaskTimeLimitInSeconds c;
         TaskTitle := TaskTitle c;
         WorkteamArn := WorkteamArn c |}
  | None => c
  end.

Definition with_TaskTimeLimitInSeconds (m : gmap string value)
    (c : HumanLoopConfig) : HumanLoopConfig :=
  match int_ok (index m "task_time_limit_in_seconds") with
  | Some v =>
      {| HumanTaskUiArn := HumanTaskUiArn c;
         TaskAvailabilityLifetimeInSeconds := TaskAvailabilityLifetimeInSeconds c;
         TaskCount := TaskCount c;
         TaskDescription := TaskDescription c;
         TaskKeywords := TaskKeywords c;
         TaskTimeLimitInSeconds := Some v;
         TaskTitle := TaskTitle c;
         WorkteamArn := WorkteamArn c |}
  | None => c
  end.

(** [expandSagemakerFlowDefinitionHumanLoopConfig] *)
Definition expandSagemakerFlowDefinitionHumanLoopConfig
    (l : slice value) : result (option HumanLoopConfig) :=
  if empty_or_nil l then Ok None
  else
    let! m := assert_map (first l) in
    let! ui := assert_string (index m "human_task_ui_arn") in
    let! count := assert_int (index m "task_count") in
    let! descr := assert_string (index m "task_description") in
    let! title := assert_string (index m "task_title") in
    let! team := assert_string (index m "workteam_arn") in
    let config :=
      {| HumanTaskUiArn := Some ui;
         TaskAvailabilityLifetimeInSeconds := None;
         TaskCount := Some count;
         TaskDescription := Some descr;
         TaskKeywords := NilSlice;
         TaskTimeLimitInSeconds := None;
         TaskTitle := Some title;
         WorkteamArn := Some team |} in
    Ok (Some (with_TaskTimeLimitInSeconds m
               (with_TaskAvailabilityLifetimeInSeconds m
                 (with_TaskKeywords m config)))).

(** The three conditional map stores of
    [flattenSagemakerFlowDefinitionHumanLoopConfig]. *)
Definition put_task_keywords (c : HumanLoopConfig) (m : gmap string value)
    : gmap string value :=
  if slice_is_nil (TaskKeywords c) then m
  else <[ "task_keywords" := VSet (flattenStringSet (TaskKeywords c)) ]> m.

Definition put_task_availability_lifetime_in_seconds (c : HumanLoopConfig)
    (m : gmap string value) : gmap string value :=
  match TaskAvailabilityLifetimeInSeconds c with
  | Some _ =>
      <[ "task_availability_lifetime_in_seconds" :=
         VInt64 (Int64Value (TaskAvailabilityLifetimeInSeconds c)) ]> m
  | None => m
  end.

Definition put_task_time_limit_in_seconds (c : HumanLoopConfig)
    (m : gmap string value) : gmap string value :=
  match TaskTimeLimitInSeconds c with
  | Some _ =>
      <[ "task_time_limit_in_seconds" :=
         VInt64 (Int64Value (TaskTimeLimitInSeconds c)) ]> m
  | None => m
  end.

(** [flattenSagemakerFlowDefinitionHumanLoopConfig] *)
Definition flattenSagemakerFlowDefinitionHumanLoopConfig
    (config : option HumanLoopConfig) : slice (gmap string value) :=
  match config with
  | None => Slice []
  | Some c =>
      let m : gmap string value :=
        {[ "human_task_ui_arn" := VString (StringValue (HumanTaskUiArn c));
           "task_count" := VInt64 (Int64Value (TaskCount c));
           "task_description" := VString (StringValue (TaskDescription c));
           "task_title" := VString (StringValue (TaskTitle c));
           "workteam_arn" := VString (StringValue (WorkteamArn c)) ]} in
      Slice [ put_task_time_limit_in_seconds c
                (put_task_availability_lifetime_in_seconds c
                  (put_task_keywords c m)) ]
  end.

(** ** Regular expressions and schema validators *)

(** The fragment of Go's [regexp] syntax the schema uses. A pattern of the
    schema is anchored with [^] and [$] (without the [m] flag: beginning and
    end of the text), so [MatchString] holds when the whole string is in the
    language of what stands between the anchors. Strings are sequences of
    bytes; a character class takes one byte. For the classes used here this
    accepts the same strings as matching by UTF-8 code point: the bytes of a
    multi-byte code point are neither ['/'] nor a line feed. *)
Inductive regexp : Type :=
  | Void
  | Eps
  | Class (p : ascii -> bool)
  | Cat (r1 r2 : regexp)
  | Alt (r1 r2 : regexp)
  | Star (r : regexp).

Fixpoint nullable (r : regexp) : bool :=
  match r with
  | Void => false
  | Eps => true
  | Class _ => false
  | Cat r1 r2 => nullable r1 && nullable r2
  | Alt r1 r2 => nullable r1 || nullable r2
  | Star _ => true
  end.

(** Brzozowski derivative of [r] by the byte [c]. *)
Fixpoint deriv (c : ascii) (r : regexp) : regexp :=
  match r with
  | Void => Void
  | Eps => Void
  | Class p => if p c then Eps else Void
  | Cat r1 r2 =>
      if nullable r1
      then Alt (Cat (deriv c r1) r2) (deriv c r2)
      else Cat (deriv c r1) r2
  | Alt r1 r2 => Alt (deriv c r1) (deriv c r2)
  | Star r1 => Cat (deriv c r1) (Star r1)
  end.

Fixpoint MatchString (r : regexp) (s : string) : bool :=
  match s with
  | EmptyString => nullable r
  | String c rest => MatchString (deriv c r) rest
  end.

Definition in_range (lo hi : ascii) (c : ascii) : bool :=
  (nat_of_ascii lo <=? nat_of_ascii c)%nat &&
  (nat_of_ascii c <=? nat_of_ascii hi)%nat.

(** [[a-z0-9]] *)
Definition lower_alnum (c : ascii) : bool :=
  in_range "a" "z" c || in_range "0" "9" c.

Definition Chr (a : ascii) : regexp := Class (Ascii.eqb a).

(** A literal string. *)
Fixpoint Lit (s : string) : regexp :=
  match s with
  | EmptyString => Eps
  | String c rest => Cat (Chr c) (Lit rest)
  end.

(** [r?] *)
Definition Opt (r : regexp) : regexp := Alt r Eps.

(** [[^/]]: a negated class also takes a line feed. *)
Definition not_slash (c : ascii) : bool := negb (Ascii.eqb c "/").

(** [.]: without the [s] flag, anything but a line feed. *)
Definition dot (c : ascii) : bool := negb (Ascii.eqb c "010").

(** The pattern of [flow_definition_name]: [^[a-z0-9](-*[a-z0-9])*$]. *)
Definition flow_definition_name_regexp : regexp :=
  Cat (Class lower_alnum) (Star (Cat (Star (Chr "-")) (Class lower_alnum))).

(** The pattern of [s3_output_path]: [^(https|s3)://([^/])/?], then a group
    holding [.*], then [$]. *)
Definition s3_output_path_regexp : regexp :=
  Cat (Alt (Lit "https") (Lit "s3"))
    (Cat (Lit "://")
      (Cat (Class not_slash)
        (Cat (Opt (Chr "/")) (Star (Class dot))))).

(** A [schema.SchemaValidateFunc], reduced to the errors it reports. *)
Definition SchemaValidateFunc : Type := value -> list string.

(** [validation.StringLenBetween]: Go's [len] of a string counts bytes. *)
Definition StringLenBetween (min max : nat) : SchemaValidateFunc :=
  fun i =>
    match i with
    | VString v =>
        if (String.length v <? min)%nat || (max <? String.length v)%nat
        then ["expected length to be in the given range"]
        else []
    | _ => ["expected type to be string"]
    end.

(** [validation.StringMatch] *)
Definition StringMatch (r : regexp) (message : string) : SchemaValidateFunc :=
  fun i =>
    match i with
    | VString v =>
        if MatchString r v then [] else ["invalid value: " ++ message]
    | _ => ["expected type to be string"]
    end.

(** [validation.All]: the errors of every validator, in order. *)
Definition All (validators : list SchemaValidateFunc) : SchemaValidateFunc :=
  fun i => List.concat (List.map (fun f => f i) validators).

(** A value passes a validator that reports no error. *)
Definition accepts (f : SchemaValidateFunc) (i : value) : bool :=
  match f i with [] => true | _ :: _ => false end.

(** [ValidateFunc] of [flow_definition_name]. *)
Definition flow_definition_name_ValidateFunc : SchemaValidateFunc :=
  All [ StringLenBetween 1 63;
        StringMatch flow_definition_name_regexp
          "Valid characters are a-z, 0-9, and - (hyphen)." ].

(** [ValidateFunc] of [s3_output_path]. *)
Definition s3_output_path_ValidateFunc : SchemaValidateFunc :=
  All [ StringMatch s3_output_path_regexp "";
        StringLenBetween 1 512 ].

(** ** Request and response structs of the service *)

(** [sagemaker.Tag] *)
Record Tag := {
  Key : option string;
  Value : option string
}.

Module CreateFlowDefinitionInput.
Record t := {
  FlowDefinitionName : option string;
  HumanLoopActivationConfig : option HumanLoopActivationConfig;
  HumanLoopConfig : option HumanLoopConfig;
  HumanLoopRequestSource : option HumanLoopRequestSource;
  OutputConfig : option FlowDefinitionOutputConfig;
  RoleArn : option string;
  Tags : slice Tag
}.
End CreateFlowDefinitionInput.

Module DescribeFlowDefinitionOutput.
Record t := {
  FlowDefinitionArn : option string;
  FlowDefinitionName : option string;
  HumanLoopActivationConfig : option HumanLoopActivationConfig;
  HumanLoopConfig : option HumanLoopConfig;
  HumanLoopRequestSource : option HumanLoopRequestSource;
  OutputConfig : option FlowDefinitionOutputConfig;
  RoleArn : option string
}.
End DescribeFlowDefinitionOutput.

(** ** Resource data of the plugin SDK *)

Inductive ValueType : Type := TypeString | TypeList | TypeMap.

(** The [Type] of each top-level attribute of the resource's [Schema]. *)
Definition Schema : list (string * ValueType) :=
  [ ("arn", TypeString);
    ("flow_definition_name", TypeString);
    ("human_loop_activation_config", TypeList);
    ("human_loop_config", TypeList);
    ("human_loop_request_source", TypeList);
    ("role_arn", TypeString);
    ("output_config", TypeList);
    ("tags", TypeMap);
    ("tags_all", TypeMap) ].

Fixpoint schema_type (sch : list (string * ValueType)) (key : string)
    : option ValueType :=
  match sch with
  | [] => None
  | (k, t) :: rest => if String.eqb k key then Some t else schema_type rest key
  end.

(** The zero value [Get] returns for an attribute that is not set. *)
Definition Zero (key : string) : value :=
  match schema_type Schema key with
  | Some TypeString => VString ""
  | Some TypeList => VList (Slice [])
  | Some TypeMap => VMap ∅
  | None => VNil
  end.

Definition is_zero (v : value) : bool :=
  match v with
  | VNil => true
  | VString s => String.eqb s ""
  | VInt n | VInt64 n => (n =? 0)%Z
  | VSet s => (size s =? 0)%nat
  | VList l => (len l =? 0)%nat
  | VMap m => (size m =? 0)%nat
  | VMaps l => (len l =? 0)%nat
  end.

(** [schema.ResourceData] as the resource uses it: the ID, the new-resource
    mark, the attribute values, the prior state that [GetChange] reports as
    the old value, and the keys the diff of the plugin SDK marks as
    changed. *)
Record ResourceData := {
  Id : string;
  IsNewResource : bool;
  attrs : gmap string value;
  prior : gmap string value;
  changed : gset string
}.

Definition or_zero (key : string) (v : option value) : value :=
  match v with
  | None | Some VNil => Zero key
  | Some v => v
  end.

Definition Get (d : ResourceData) (key : string) : value :=
  or_zero key (attrs d !! key).

Definition GetOk (d : ResourceData) (key : string) : value * bool :=
  (Get d key, negb (is_zero (Get d key))).

Definition HasChange (d : ResourceData) (key : string) : bool :=
  bool_decide (key ∈ changed d).

Definition GetChange (d : ResourceData) (key : string) : value * value :=
  (or_zero key (prior d !! key), Get d key).

Definition SetId (v : string) (d : ResourceData) : ResourceData :=
  {| Id := v; IsNewResource := IsNewResource d; attrs := attrs d;
     prior := prior d; changed := changed d |}.

(** A [*string] handed to [Set]. *)
Definition string_ptr (p : option string) : value :=
  match p with Some s => VString s | None => VNil end.

(** A [map[string]string] handed to [Set]. *)
Definition string_map (m : gmap string string) : value :=
  VMap (VString <$> m).

(** The calls the resource issues against the service, as they are logged. *)
Inductive call : Type :=
  | CreateFlowDefinitionCall (input : CreateFlowDefinitionInput.t)
  | DeleteFlowDefinitionCall (name : string)
  | FlowDefinitionByNameCall (name : string)
  | ListTagsCall (arn : string)
  | UpdateTagsCall (arn : string) (o n : value).

(** The calls that change the remote resource. *)
Definition mutating (c : call) : bool :=
  match c with
  | CreateFlowDefinitionCall _ | DeleteFlowDefinitionCall _
  | UpdateTagsCall _ _ _ => true
  | FlowDefinitionByNameCall _ | ListTagsCall _ => false
  end.

Section Resource.

(** The state of the remote service, and the tag collections and tag
    configurations of the [keyvaluetags] package. *)
Variables World KeyValueTags DefaultConfig IgnoreConfig : Type.

(** The connection [sagemakerconn] to the service: every operation answers from the
    state of the service and may change it. [FlowDefinitionByName] is the
    finder of this repository, [SagemakerListTags] and [SagemakerUpdateTags]
    are its generated tag helpers; none is part of the sources at hand, so
    each is an operation of the connection it is given. *)
Record SageMaker := {
  CreateFlowDefinition :
    CreateFlowDefinitionInput.t -> World -> option error * World;
  DeleteFlowDefinition : string -> World -> option error * World;
  FlowDefinitionByName :
    string -> World ->
    (option DescribeFlowDefinitionOutput.t * option error) * World;
  SagemakerListTags :
    string -> World -> (KeyValueTags * option error) * World;
  SagemakerUpdateTags :
    string -> value -> value -> World -> option error * World
}.

(** The functions of [keyvaluetags] the resource calls, and what [Set]
    answers for a key and a value. *)
Record Helpers := {
  New : gmap string value -> KeyValueTags;
  MergeTags : DefaultConfig -> KeyValueTags -> KeyValueTags;
  tags_len : KeyValueTags -> nat;
  IgnoreAws : KeyValueTags -> KeyValueTags;
  IgnoreTags : KeyValueTags -> IgnoreConfig -> KeyValueTags;
  RemoveDefaultConfig : KeyValueTags -> DefaultConfig -> KeyValueTags;
  SagemakerTags : KeyValueTags -> slice Tag;
  Map : KeyValueTags -> gmap string string;
  SetError : string -> value -> option error
}.

(** The [AWSClient] that [meta] holds. *)
Record AWSClient := {
  sagemakerconn : SageMaker;
  DefaultTagsConfig : DefaultConfig;
  IgnoreTagsConfig : IgnoreConfig;
  helpers : Helpers
}.

(** What a CRUD function runs on: the resource data it is handed, the remote
    service, and the calls issued so far. *)
Record Exec := {
  data : ResourceData;
  remote : World;
  calls : list call
}.

Definition with_data (d : ResourceData) (st : Exec) : Exec :=
  {| data := d; remote := remote st; calls := calls st |}.

(** Issue one call: the service answers and moves on, the call is logged. *)
Definition issue {A} (c : call) (op : World -> A * World) (st : Exec)
    : A * Exec :=
  let '(a, w) := op (remote st) in
  (a, {| data := data st; remote := w; calls := calls st ++ [c] |}).

Variable meta : AWSClient.

(** [d.Set]: the value is stored unless the plugin SDK refuses it. *)
Definition Set_ (d : ResourceData) (key : string) (v : value)
    : ResourceData * option error :=
  match SetError (helpers meta) key v with
  | Some e => (d, Some e)
  | None =>
      ({| Id := Id d; IsNewResource := IsNewResource d;
          attrs := <[ key := v ]> (attrs d);
          prior := prior d; changed := changed d |}, None)
  end.

(** A statement that may fail, and the sequence of two of them. *)
Definition stmt : Type := ResourceData -> ResourceData * option error.

Definition seq (s1 s2 : stmt) : stmt :=
  fun d =>
    match s1 d with
    | (d', None) => s2 d'
    | (d', Some e) => (d', Some e)
    end.

(** [d.Set(key, v)] with the error dropped. *)
Definition set_unchecked (key : string) (v : value) : stmt :=
  fun d => (fst (Set_ d key v), None).

(** [if err := d.Set(key, v); err != nil { return fmt.Errorf(text, err) }] *)
Definition set_checked (key : string) (v : value) (text : string) : stmt :=
  fun d =>
    match Set_ d key v with
    | (d', Some e) => (d', Some (Errorf text e))
    | (d', None) => (d', None)
    end.

Section JSONCodec.

Variable DecodeJSONValue : string -> JSONValue * option error.
Variable EncodeJSONValue : JSONValue -> string * option error.

(** The [Set] calls of [resourceAwsSagemakerFlowDefinitionRead] between the
    lookup and the listing of the tags. *)
Definition read_set_definition (fd : DescribeFlowDefinitionOutput.t) : stmt :=
  let arn := StringValue (DescribeFlowDefinitionOutput.FlowDefinitionArn fd) in
  seq (set_unchecked "arn" (VString arn))
 (seq (set_unchecked "role_arn"
        (string_ptr (DescribeFlowDefinitionOutput.RoleArn fd)))
 (seq (set_unchecked "flow_definition_name"
        (string_ptr (DescribeFlowDefinitionOutput.FlowDefinitionName fd)))
 (seq (set_checked "human_loop_activation_config"
        (VMaps
          (flattenSagemakerFlowDefinitionHumanLoopActivationConfig
             EncodeJSONValue
             (DescribeFlowDefinitionOutput.HumanLoopActivationConfig fd)))
        "error setting human_loop_activation_config")
 (seq (set_checked "human_loop_config"
        (VMaps
          (flattenSagemakerFlowDefinitionHumanLoopConfig
             (DescribeFlowDefinitionOutput.HumanLoopConfig fd)))
        "error setting human_loop_config")
 (seq (set_checked "human_loop_request_source"
        (VMaps
          (flattenSagemakerFlowDefinitionHumanLoopRequestSource
             (DescribeFlowDefinitionOutput.HumanLoopRequestSource fd)))
        "error setting human_loop_request_source")
      (set_checked "output_config"
        (VMaps
          (flattenSagemakerFlowDefinitionOutputConfig
             (DescribeFlowDefinitionOutput.OutputConfig fd)))
        "error setting output_config")))))).

(** The [Set] calls of [resourceAwsSagemakerFlowDefinitionRead] after the
    listing of the tags. *)
Definition read_set_tags (tags : KeyValueTags) : stmt :=
  let h := helpers meta in
  let tags := IgnoreTags h (IgnoreAws h tags) (IgnoreTagsConfig meta) in
  seq (set_checked "tags"
        (string_map (Map h (RemoveDefaultConfig h tags (DefaultTagsConfig meta))))
        "error setting tags")
      (set_checked "tags_all" (string_map (Map h tags))
        "error setting tags_all").

(** [resourceAwsSagemakerFlowDefinitionRead]. The log lines are left out.
    Dereferencing the nil [flowDefinition] of a lookup that returned neither
    a definition nor an error panics. *)
Definition resourceAwsSagemakerFlowDefinitionRead (st : Exec)
    : result (option error * Exec) :=
  let conn := sagemakerconn meta in
  let id := Id (data st) in
  let '((flowDefinition, err), st) :=
    issue (FlowDefinitionByNameCall id) (FlowDefinitionByName conn id) st in
  if negb (IsNewResource (data st)) && NotFound err then
    Ok (None, with_data (SetId "" (data st)) st)
  else
    match err with
    | Some e =>
        Ok (Some (Errorf ("error reading SageMaker Flow Definition (" ++ id ++ ")") e),
            st)
    | None =>
        match flowDefinition with
        | None => Panic
        | Some fd =>
            let arn :=
              StringValue (DescribeFlowDefinitionOutput.FlowDefinitionArn fd) in
            match read_set_definition fd (data st) with
            | (d, Some e) => Ok (Some e, with_data d st)
            | (d, None) =>
                let '((tags, err), st) :=
                  issue (ListTagsCall arn) (SagemakerListTags conn arn)
                    (with_data d st) in
                match err with
                | Some e =>
                    Ok (Some (Errorf
                          ("error listing tags for SageMaker Flow Definition ("
                             ++ Id (data st) ++ ")") e), st)
                | None =>
                    let '(d, err) := read_set_tags tags (data st) in
                    Ok (err, with_data d st)
                end
            end
        end
    end.

(** [if v, ok := d.GetOk(key); ok && (len(v.([]interface{})) > 0)]: the
    expansion of the block when the condition holds, nil otherwise. *)
Definition optional_block {C} (d : ResourceData) (key : string)
    (expand : slice value -> result (option C)) : result (option C) :=
  let '(v, ok) := GetOk d key in
  if ok then
    let! l := assert_list v in
    if (0 <? len l)%nat then expand l else Ok None
  else Ok None.

(** The [CreateFlowDefinitionInput] that
    [resourceAwsSagemakerFlowDefinitionCreate] builds from the resource
    data, up to the call. *)
Definition create_input (d : ResourceData)
    : result CreateFlowDefinitionInput.t :=
  let h := helpers meta in
  let! tagmap := assert_map (Get d "tags") in
  let tags := MergeTags h (DefaultTagsConfig meta) (New h tagmap) in
  let! name := assert_string (Get d "flow_definition_name") in
  let! hlc_l := assert_list (Get d "human_loop_config") in
  let! hlc := expandSagemakerFlowDefinitionHumanLoopConfig hlc_l in
  let! role := assert_string (Get d "role_arn") in
  let! oc_l := assert_list (Get d "output_config") in
  let! oc := expandSagemakerFlowDefinitionOutputConfig oc_l in
  let! hlac :=
    optional_block d "human_loop_activation_config"
      (expandSagemakerFlowDefinitionHumanLoopActivationConfig DecodeJSONValue) in
  let! hlrs :=
    optional_block d "human_loop_request_source"
      expandSagemakerFlowDefinitionHumanLoopRequestSource in
  Ok {| CreateFlowDefinitionInput.FlowDefinitionName := Some name;
        CreateFlowDefinitionInput.HumanLoopActivationConfig := hlac;
        CreateFlowDefinitionInput.HumanLoopConfig := hlc;
        CreateFlowDefinitionInput.HumanLoopRequestSource := hlrs;
        CreateFlowDefinitionInput.OutputConfig := oc;
        CreateFlowDefinitionInput.RoleArn := Some role;
        CreateFlowDefinitionInput.Tags :=
          if (0 <? tags_len h tags)%nat
          then SagemakerTags h (IgnoreAws h tags)
          else NilSlice |}.

(** [resourceAwsSagemakerFlowDefinitionCreate] *)
Definition resourceAwsSagemakerFlowDefinitionCreate (st : Exec)
    : result (option error * Exec) :=
  let conn := sagemakerconn meta in
  let! input := create_input (data st) in
  let name := StringValue (CreateFlowDefinitionInput.FlowDefinitionName input) in
  let '(err, st) :=
    issue (CreateFlowDefinitionCall input) (CreateFlowDefinition conn input) st in
  match err with
  | Some e =>
      Ok (Some (Errorf ("error creating SageMaker Flow Definition (" ++ name ++ ")") e),
          st)
  | None =>
      resourceAwsSagemakerFlowDefinitionRead
        (with_data (SetId name (data st)) st)
  end.

(** [resourceAwsSagemakerFlowDefinitionUpdate] *)
Definition resourceAwsSagemakerFlowDefinitionUpdate (st : Exec)
    : result (option error * Exec) :=
  let conn := sagemakerconn meta in
  let d := data st in
  if HasChange d "tags_all" then
    let '(o, n) := GetChange d "tags_all" in
    let! arn := assert_string (Get d "arn") in
    let '(err, st) :=
      issue (UpdateTagsCall arn o n) (SagemakerUpdateTags conn arn o n) st in
    match err with
    | Some e =>
        Ok (Some (Errorf
              ("error updating SageMaker Flow Definition (" ++ Id d ++ ") tags") e),
            st)
    | None => resourceAwsSagemakerFlowDefinitionRead st
    end
  else resourceAwsSagemakerFlowDefinitionRead st.

(** [resourceAwsSagemakerFlowDefinitionDelete] *)
Definition resourceAwsSagemakerFlowDefinitionDelete (st : Exec)
    : result (option error * Exec) :=
  let conn := sagemakerconn meta in
  let id := Id (data st) in
  let '(err, st) :=
    issue (DeleteFlowDefinitionCall id) (DeleteFlowDefinition conn id) st in
  if ErrMessageContains err "ValidationException" "The work team" then
    Ok (None, st)
  else
    match err with
    | Some e =>
        Ok (Some (Errorf ("error deleting SageMaker Flow Definition (" ++ id ++ ")") e),
            st)
    | None => Ok (None, st)
    end.

End JSONCodec.

End Resource.

(** ** Vocabulary of the properties *)

(** Flatten what an expand function returned, read back as a
    [[]interface{}]. *)
Definition flatten_after_expand {C}
    (expand : slice value -> result (option C))
    (flatten : option C -> slice (gmap string value))
    (l : slice value) : result (slice value) :=
  let! config := expand l in Ok (as_interfaces (flatten config)).

(** The nil and empty edge of an expand/flatten pair. *)
Definition nil_edge {C}
    (expand : slice value -> result (option C))
    (flatten : option C -> slice (gmap string value)) : Prop :=
  (forall l : slice value,
     expand l = Ok None <->
     (len l = 0%nat \/ exists rest, slice_elems l = VNil :: rest)) /\
  flatten None = Slice [] /\
  (forall l : slice value,
     len l = 0%nat -> flatten_after_expand expand flatten l = Ok (Slice [])) /\
  expand (as_interfaces (flatten None)) = Ok None.

(** A [human_loop_config] block with every string and integer attribute set
    and [task_keywords] set or left out; [int] is the dynamic type the three
    integers are held in. *)
Definition human_loop_config_block (int : Z -> value)
    (human_task_ui_arn task_description task_title workteam_arn : string)
    (task_count task_availability_lifetime_in_seconds
       task_time_limit_in_seconds : Z)
    (task_keywords : option (gset string)) : gmap string value :=
  let m : gmap string value :=
    {[ "human_task_ui_arn" := VString human_task_ui_arn;
       "task_count" := int task_count;
       "task_description" := VString task_description;
       "task_title" := VString task_title;
       "workteam_arn" := VString workteam_arn;
       "task_availability_lifetime_in_seconds" :=
         int task_availability_lifetime_in_seconds;
       "task_time_limit_in_seconds" := int task_time_limit_in_seconds ]} in
  match task_keywords with
  | Some s => <[ "task_keywords" := VSet s ]> m
  | None => m
  end.

(** An [output_config] block with both attributes set. *)
Definition output_config_block (s3_output_path kms_key_id : string)
    : gmap string value :=
  {[ "kms_key_id" := VString kms_key_id;
     "s3_output_path" := VString s3_output_path ]}.

(** An observation [attr] of the remote service is a non-tag attribute when
    neither the lookups nor the tag update change it. *)
Definition non_tag_attribute {World KeyValueTags X : Type}
    (conn : SageMaker World KeyValueTags) (attr : World -> X) : Prop :=
  (forall name w, attr (snd (FlowDefinitionByName _ _ conn name w)) = attr w) /\
  (forall arn w, attr (snd (SagemakerListTags _ _ conn arn w)) = attr w) /\
  (forall arn o n w,
     attr (snd (SagemakerUpdateTags _ _ conn arn o n w)) = attr w).

(** The language of a regular expression. *)
Inductive lang : regexp -> string -> Prop :=
  | lang_Eps : lang Eps ""
  | lang_Class p c : p c = true -> lang (Class p) (String c "")
  | lang_Cat r1 r2 s1 s2 :
      lang r1 s1 -> lang r2 s2 -> lang (Cat r1 r2) (s1 ++ s2)
  | lang_Alt_l r1 r2 s : lang r1 s -> lang (Alt r1 r2) s
  | lang_Alt_r r1 r2 s : lang r2 s -> lang (Alt r1 r2) s
  | lang_Star_nil r : lang (Star r) ""
  | lang_Star_app r s1 s2 :
      lang r s1 -> lang (Star r) s2 -> lang (Star r) (s1 ++ s2).

(** Every byte of the string is in the class. *)
Fixpoint all_chars (p : ascii -> bool) (s : string) : bool :=
  match s with
  | EmptyString => true
  | String c rest => p c && all_chars p rest
  end.

(** The string has a first byte, and it is in the class. *)
Definition first_char (p : ascii -> bool) (s : string) : bool :=
  match s with
  | EmptyString => false
  | String c _ => p c
  end.

(** The string has a last byte, and it is in the class. *)
Fixpoint last_char (p : ascii -> bool) (s : string) : bool :=
  match s with
  | EmptyString => false
  | String c EmptyString => p c
  | String _ rest => last_char p rest
  end.

Definition is_hyphen (c : ascii) : bool := Ascii.eqb "-" c.

(** Lowercase alphanumerics and hyphens, starting and ending with an
    alphanumeric. *)
Definition flow_definition_name_shape (s : string) : bool :=
  first_char lower_alnum s && last_char lower_alnum s &&
  all_chars (fun c => lower_alnum c || is_hyphen c) s.

(** The two-state automaton of the name pattern past its first byte:
    [ready] tells whether the bytes read so far end with an alphanumeric. *)
Fixpoint name_tail (ready : bool) (s : string) : bool :=
  match s with
  | EmptyString => ready
  | String c rest =>
      if lower_alnum c then name_tail true rest
      else if is_hyphen c then name_tail false rest
      else false
  end.

Definition name_automaton (s : string) : bool :=
  match s with
  | EmptyString => false
  | String c rest => lower_alnum c && name_tail true rest
  end.

(** The rest of [s] past the prefix [p], if [s] starts with [p]. *)
Fixpoint strip_prefix (p s : string) : option string :=
  match p with
  | EmptyString => Some s
  | String a p' =>
      match s with
      | EmptyString => None
      | String b s' => if Ascii.eqb a b then strip_prefix p' s' else None
      end
  end.

(** What follows the scheme and "://", if the string starts with one of the
    two schemes. *)
Definition after_scheme (s : string) : option string :=
  match strip_prefix "https://" s with
  | Some rest => Some rest
  | None => strip_prefix "s3://" s
  end.

(** A scheme, "://", one byte that is not a slash, then no line feed. *)
Definition s3_output_path_shape (s : string) : bool :=
  match after_scheme s with
  | Some (String c rest) => not_slash c && all_chars dot rest
  | _ => false
  end.

(** A ValidationException that names the work team: the error, or the error
    it wraps, is an [awserr.Error] with that code and a message that has
    "The work team" in it. *)
Definition work_team_validation (e : error) : Prop :=
  exists message before after : string,
    as_awserr e = Some ("ValidationException", message) /\
    message = before ++ "The work team" ++ after.

(** ** An in-memory service

    A small service to run the CRUD functions on: flow definitions by name,
    no tags, a plugin SDK that takes every value. *)
Module InMemory.

Definition World : Type := list (string * DescribeFlowDefinitionOutput.t).

Fixpoint find (name : string) (w : World)
    : option DescribeFlowDefinitionOutput.t :=
  match w with
  | [] => None
  | (n, fd) :: rest => if String.eqb n name then Some fd else find name rest
  end.

Definition remove (name : string) (w : World) : World :=
  List.filter (fun e => negb (String.eqb (fst e) name)) w.

Definition described (input : CreateFlowDefinitionInput.t)
    : DescribeFlowDefinitionOutput.t :=
  {| DescribeFlowDefinitionOutput.FlowDefinitionArn :=
       Some ("arn:aws:sagemaker:flow-definition/" ++
             StringValue (CreateFlowDefinitionInput.FlowDefinitionName input));
     DescribeFlowDefinitionOutput.FlowDefinitionName :=
       CreateFlowDefinitionInput.FlowDefinitionName input;
     DescribeFlowDefinitionOutput.HumanLoopActivationConfig :=
       CreateFlowDefinitionInput.HumanLoopActivationConfig input;
     DescribeFlowDefinitionOutput.HumanLoopConfig :=
       CreateFlowDefinitionInput.HumanLoopConfig input;
     DescribeFlowDefinitionOutput.HumanLoopRequestSource :=
       CreateFlowDefinitionInput.HumanLoopRequestSource input;
     DescribeFlowDefinitionOutput.OutputConfig :=
       CreateFlowDefinitionInput.OutputConfig input;
     DescribeFlowDefinitionOutput.RoleArn :=
       CreateFlowDefinitionInput.RoleArn input |}.

Definition conn : SageMaker World (gmap string string) :=
  {| CreateFlowDefinition input w :=
       let name :=
         StringValue (CreateFlowDefinitionInput.FlowDefinitionName input) in
       match find name w with
       | Some _ => (Some (AwsError "ResourceInUse" "already exists"), w)
       | None => (None, (name, described input) :: w)
       end;
     DeleteFlowDefinition name w :=
       match find name w with
       | Some _ => (None, remove name w)
       | None => (Some (AwsError "ResourceNotFound" "no such definition"), w)
       end;
     FlowDefinitionByName name w :=
       match find name w with
       | Some fd => ((Some fd, None), w)
       | None => ((None, Some (NotFoundError "couldn't find resource")), w)
       end;
     SagemakerListTags arn w := ((∅, None), w);
     SagemakerUpdateTags arn o n w := (None, w) |}.

Definition tag_helpers : Helpers (gmap string string) unit unit :=
  {| New m := omap string_ok m;
     MergeTags _ tags := tags;
     tags_len tags := size tags;
     IgnoreAws tags := tags;
     IgnoreTags tags _ := tags;
     RemoveDefaultConfig tags _ := tags;
     SagemakerTags tags :=
       Slice (List.map (fun kv => {| Key := Some (fst kv);
                                      Value := Some (snd kv) |})
                       (map_to_list tags));
     Map tags := tags;
     SetError _ _ := None |}.

Definition meta : AWSClient World (gmap string string) unit unit :=
  {| sagemakerconn := conn;
     DefaultTagsConfig := tt;
     IgnoreTagsConfig := tt;
     helpers := tag_helpers |}.

(** Codecs that fail on every input. *)
Definition failing_decode (s : string) : JSONValue * option error :=
  (None, Some (ErrorString "invalid character")).

Definition failing_encode (v : JSONValue) : string * option error :=
  ("", Some (ErrorString "unsupported value")).

(** The configuration of a flow definition named [review]. *)
Definition config : gmap string value :=
  {[ "flow_definition_name" := VString "review";
     "role_arn" := VString "arn:aws:iam::role/review";
     "human_loop_config" :=
       VList (Slice [VMap (human_loop_config_block VInt
                "arn:aws:sagemaker:ui" "Review the image" "Review"
                "arn:aws:sagemaker:team" 1 3600 600 None)]);
     "output_config" :=
       VList (Slice [VMap (output_config_block "s3://bucket/out" "")]) ]}.

(** The resource data handed to Create. *)
Definition planned : ResourceData :=
  {| Id := ""; IsNewResource := true; attrs := config;
     prior := ∅; changed := ∅ |}.

(** The resource data of the definition once it is in the state, with a
    change of its tags pending. *)
Definition stored : ResourceData :=
  {| Id := "review"; IsNewResource := false;
     attrs := <[ "arn" := VString "arn:aws:sagemaker:flow-definition/review" ]>
                config;
     prior := config; changed := {[ "tags_all" ]} |}.

Definition start (d : ResourceData) (w : World) : Exec World :=
  {| data := d; remote := w; calls := [] |}.

(** The input Create builds from [planned]. *)
Definition input : CreateFlowDefinitionInput.t :=
  {| CreateFlowDefinitionInput.FlowDefinitionName := Some "review";
     CreateFlowDefinitionInput.HumanLoopActivationConfig := None;
     CreateFlowDefinitionInput.HumanLoopConfig :=
       Some {| HumanTaskUiArn := Some "arn:aws:sagemaker:ui";
               TaskAvailabilityLifetimeInSeconds := Some 3600%Z;
               TaskCount := Some 1%Z;
               TaskDescription := Some "Review the image";
               TaskKeywords := NilSlice;
               TaskTimeLimitInSeconds := Some 600%Z;
               TaskTitle := Some "Review";
               WorkteamArn := Some "arn:aws:sagemaker:team" |};
     CreateFlowDefinitionInput.HumanLoopRequestSource := None;
     CreateFlowDefinitionInput.OutputConfig :=
       Some {| KmsKeyId := None; S3OutputPath := Some "s3://bucket/out" |};
     CreateFlowDefinitionInput.RoleArn := Some "arn:aws:iam::role/review";
     CreateFlowDefinitionInput.Tags := NilSlice |}.

(** The service once the definition is created. *)
Definition created : World := [("review", described input)].

(** A connection whose tag update is refused. *)
Definition conn_tags_denied : SageMaker World (gmap string string) :=
  {| CreateFlowDefinition := CreateFlowDefinition _ _ conn;
     DeleteFlowDefinition := DeleteFlowDefinition _ _ conn;
     FlowDefinitionByName := FlowDefinitionByName _ _ conn;
     SagemakerListTags := SagemakerListTags _ _ conn;
     SagemakerUpdateTags arn o n w :=
       (Some (AwsError "AccessDeniedException" "not authorized"), w) |}.

Definition meta_tags_denied : AWSClient World (gmap string string) unit unit :=
  {| sagemakerconn := conn_tags_denied;
     DefaultTagsConfig := tt;
     IgnoreTagsConfig := tt;
     helpers := tag_helpers |}.

End InMemory.

(** ** Vocabulary of the further properties *)

(** A [human_loop_request_source] block. *)
Definition request_source_block (aws_managed_human_loop_request_source : string)
    : gmap string value :=
  {[ "aws_managed_human_loop_request_source" :=
     VString aws_managed_human_loop_request_source ]}.

(** A [human_loop_config] block with the required attributes only, and
    [task_keywords] left out or set. *)
Definition human_loop_config_required_block (int : Z -> value)
    (human_task_ui_arn task_description task_title workteam_arn : string)
    (task_count : Z) (task_keywords : option (gset string))
    : gmap string value :=
  let m : gmap string value :=
    {[ "human_task_ui_arn" := VString human_task_ui_arn;
       "task_count" := int task_count;
       "task_description" := VString task_description;
       "task_title" := VString task_title;
       "workteam_arn" := VString workteam_arn ]} in
  match task_keywords with
  | Some s => <[ "task_keywords" := VSet s ]> m
  | None => m
  end.

Definition holds {A} (o : option A) : bool :=
  match o with Some _ => true | None => false end.

(** The required attributes of a [human_loop_config] block are there, each
    with the dynamic type the expand function asserts. *)
Definition human_loop_config_required (m : gmap string value) : bool :=
  holds (string_ok (index m "human_task_ui_arn")) &&
  holds (int_ok (index m "task_count")) &&
  holds (string_ok (index m "task_description")) &&
  holds (string_ok (index m "task_title")) &&
  holds (string_ok (index m "workteam_arn")).

(** Two blocks hold the same values under the given keys. *)
Definition agree_on (keys : list string) (m m' : gmap string value) : Prop :=
  Forall (fun k => m !! k = m' !! k) keys.

(** What a statement of Read leaves alone in the resource data: the ID, the
    new-resource mark, the prior state and the diff. *)
Definition same_identity (d d' : ResourceData) : Prop :=
  Id d' = Id d /\ IsNewResource d' = IsNewResource d /\
  prior d' = prior d /\ changed d' = changed d.

(** A plugin SDK that refuses the ARN and takes everything else. *)
Module Refusing.

Definition tag_helpers : Helpers (gmap string string) unit unit :=
  {| New := New _ _ _ InMemory.tag_helpers;
     MergeTags := MergeTags _ _ _ InMemory.tag_helpers;
     tags_len := tags_len _ _ _ InMemory.tag_helpers;
     IgnoreAws := IgnoreAws _ _ _ InMemory.tag_helpers;
     IgnoreTags := IgnoreTags _ _ _ InMemory.tag_helpers;
     RemoveDefaultConfig := RemoveDefaultConfig _ _ _ InMemory.tag_helpers;
     SagemakerTags := SagemakerTags _ _ _ InMemory.tag_helpers;
     Map := Map _ _ _ InMemory.tag_helpers;
     SetError key v :=
       if String.eqb key "arn"
       then Some (ErrorString "arn: invalid value")
       else None |}.

Definition meta : AWSClient InMemory.World (gmap string string) unit unit :=
  {| sagemakerconn := InMemory.conn;
     DefaultTagsConfig := tt;
     IgnoreTagsConfig := tt;
     helpers := tag_helpers |}.

End Refusing.

(** [[A-Za-z0-9]] *)
Definition alnum (c : ascii) : bool :=
  in_range "A" "Z" c || in_range "a" "z" c || in_range "0" "9" c.

(** [r+] *)
Definition Plus (r : regexp) : regexp := Cat r (Star r).

(** The pattern of the elements of [task_keywords]:
    [^[A-Za-z0-9]+( [A-Za-z0-9]+)*$]. *)
Definition task_keywords_regexp : regexp :=
  Cat (Plus (Class alnum)) (Star (Cat (Chr " ") (Plus (Class alnum)))).

(** [ValidateFunc] of the elements of [task_keywords]. *)
Definition task_keywords_ValidateFunc : SchemaValidateFunc :=
  All [ StringLenBetween 1 30;
        StringMatch task_keywords_regexp "" ].

Definition is_space (c : ascii) : bool := Ascii.eqb " " c.

(** No two bytes of the class next to each other. *)
Fixpoint no_double (p : ascii -> bool) (s : string) : bool :=
  match s with
  | EmptyString => true
  | String c rest => negb (p c && first_char p rest) && no_double p rest
  end.

(** Words of alphanumerics with one space between two of them: nothing but
    alphanumerics and spaces, an alphanumeric first and last, no two spaces
    in a row. *)
Definition task_keyword_shape (s : string) : bool :=
  first_char alnum s && last_char alnum s &&
  all_chars (fun c => alnum c || is_space c) s &&
  no_double is_space s.

(** The two-state automaton of the keyword pattern past its first byte:
    [ready] tells whether the bytes read so far end with an alphanumeric. *)
Fixpoint keyword_tail (ready : bool) (s : string) : bool :=
  match s with
  | EmptyString => ready
  | String c rest =>
      if alnum c then keyword_tail true rest
      else if is_space c && ready then keyword_tail false rest
      else false
  end.

Definition keyword_automaton (s : string) : bool :=
  match s with
  | EmptyString => false
  | String c rest => alnum c && keyword_tail true rest
  end.

(** ** Acceptance test checks of the Transfer server

    From [internal/service/transfer/server_test.go]. *)

(** A [*terraform.ResourceState] as the checks read it: [rs.Type] and
    [rs.Primary.ID]. *)
Record ResourceState := {
  rs_Type : string;
  rs_ID : string
}.

Section ServerChecks.

(** [transfer.DescribedServer], and the finder [tftransfer.FindServerByID]
    of this repository, which is not part of the sources at hand: a lookup
    by ID against the service, which answers with a server or an error. *)
Variable DescribedServer : Type.
Variable FindServerByID : string -> option DescribedServer * option error.

(** The function [testAccCheckServerDestroy] returns, on the resources of
    the root module in the order the [range] over the map visits them. *)
Fixpoint testAccCheckServerDestroy (visited : list ResourceState)
    : option error :=
  match visited with
  | [] => None
  | rs :: rest =>
      if negb (String.eqb (rs_Type rs) "aws_transfer_server")
      then testAccCheckServerDestroy rest
      else
        let '(_, err) := FindServerByID (rs_ID rs) in
        if NotFound err then testAccCheckServerDestroy rest
        else
          match err with
          | Some e => Some e
          | None =>
              Some (ErrorString
                      ("Transfer Server " ++ rs_ID rs ++ " still exists"))
          end
  end.

(** The function [testAccCheckServerExists] returns, on the resources of the
    root module: the error and what [v] points to afterwards. Dereferencing
    the nil output of a lookup that returned neither a server nor an error
    panics. *)
Definition testAccCheckServerExists (n : string) (v : DescribedServer)
    (resources : gmap string ResourceState)
    : result (option error * DescribedServer) :=
  match resources !! n with
  | None => Ok (Some (ErrorString ("Not found: " ++ n)), v)
  | Some rs =>
      if String.eqb (rs_ID rs) ""
      then Ok (Some (ErrorString "No Transfer Server ID is set"), v)
      else
        let '(output, err) := FindServerByID (rs_ID rs) in
        match err with
        | Some e => Ok (Some e, v)
        | None =>
            match output with
            | Some server => Ok (None, server)
            | None => Panic
            end
        end
  end.

End ServerChecks.

(** The resource is a Transfer server. *)
Definition is_transfer_server (rs : ResourceState) : bool :=
  String.eqb (rs_Type rs) "aws_transfer_server".

(** A service with one server left, for the examples. *)
Module Servers.

Definition find (id : string) : option unit * option error :=
  if String.eqb id "s-1"
  then (Some tt, None)
  else (None, Some (NotFoundError "couldn't find resource")).

Definition gone : list ResourceState :=
  [ {| rs_Type := "aws_iam_role"; rs_ID := "role" |};
    {| rs_Type := "aws_transfer_server"; rs_ID := "s-2" |} ].

Definition state : gmap string ResourceState :=
  {[ "aws_transfer_server.test" :=
       {| rs_Type := "aws_transfer_server"; rs_ID := "s-2" |};
     "aws_iam_role.test" := {| rs_Type := "aws_iam_role"; rs_ID := "role" |} ]}.

End Servers.

(** * Properties *)

(** ** Nil and empty edges *)

Lemma empty_or_nil_spec (l : slice value) :
  empty_or_nil l = true <->
  (len l = 0%nat \/ exists rest, slice_elems l = VNil :: rest).
Proof.
  unfold empty_or_nil, len, first.
  destruct l as [|[|v rest]]; simpl.
  - split; [now left | reflexivity].
  - split; [now left | reflexivity].
  - split.
    + intros H. right. destruct v; try discriminate H. now exists rest.
    + intros [H | [rest' H]]; [discriminate H | ].
      injection H as -> _. reflexivity.
Qed.

Lemma empty_or_nil_len0 (l : slice value) :
  len l = 0%nat -> empty_or_nil l = true.
Proof. intros H. apply empty_or_nil_spec. now left. Qed.

(** An expand function that opens with the guard and never answers nil
    past it has the edge of the claim. *)
Lemma nil_edge_intro {C}
    (expand : slice value -> result (option C))
    (flatten : option C -> slice (gmap string value)) :
  (forall l, empty_or_nil l = true -> expand l = Ok None) ->
  (forall l, empty_or_nil l = false -> expand l <> Ok None) ->
  flatten None = Slice [] ->
  nil_edge expand flatten.
Proof.
  intros Hguard Hpast Hflat. unfold nil_edge. repeat split.
  - intros H. apply empty_or_nil_spec.
    destruct (empty_or_nil l) eqn:E; [reflexivity | ].
    exfalso. exact (Hpast l E H).
  - intros H. apply Hguard. now apply empty_or_nil_spec.
  - exact Hflat.
  - intros l H. unfold flatten_after_expand.
    rewrite (Hguard l (empty_or_nil_len0 l H)). simpl. now rewrite Hflat.
  - rewrite Hflat. apply Hguard. reflexivity.
Qed.

Ltac past_guard :=
  repeat match goal with
  | |- context [rbind ?r _] => destruct r; simpl; try discriminate
  | |- context [let '(_, _) := ?p in _] => destruct p; simpl; try discriminate
  end.

Section Codec.

Variable DecodeJSONValue : string -> JSONValue * option error.
Variable EncodeJSONValue : JSONValue -> string * option error.

Lemma nil_edge_human_loop_activation_conditions_config :
  nil_edge
    (expandSagemakerFlowDefinitionHumanLoopActivationConditionsConfig
       DecodeJSONValue)
    (flattenSagemakerFlowDefinitionHumanLoopActivationConditionsConfig
       EncodeJSONValue).
Proof.
  apply nil_edge_intro; [| | reflexivity]; intros l E;
    unfold expandSagemakerFlowDefinitionHumanLoopActivationConditionsConfig;
    rewrite E; [reflexivity | past_guard].
Qed.

Lemma nil_edge_human_loop_activation_config :
  nil_edge
    (expandSagemakerFlowDefinitionHumanLoopActivationConfig DecodeJSONValue)
    (flattenSagemakerFlowDefinitionHumanLoopActivationConfig EncodeJSONValue).
Proof.
  apply nil_edge_intro; [| | reflexivity]; intros l E;
    unfold expandSagemakerFlowDefinitionHumanLoopActivationConfig;
    rewrite E; [reflexivity | past_guard].
Qed.

End Codec.

Lemma nil_edge_output_config :
  nil_edge expandSagemakerFlowDefinitionOutputConfig
           flattenSagemakerFlowDefinitionOutputConfig.
Proof.
  apply nil_edge_intro; [| | reflexivity]; intros l E;
    unfold expandSagemakerFlowDefinitionOutputConfig;
    rewrite E; [reflexivity | past_guard].
Qed.

Lemma nil_edge_human_loop_request_source :
  nil_edge expandSagemakerFlowDefinitionHumanLoopRequestSource
           flattenSagemakerFlowDefinitionHumanLoopRequestSource.
Proof.
  apply nil_edge_intro; [| | reflexivity]; intros l E;
    unfold expandSagemakerFlowDefinitionHumanLoopRequestSource;
    rewrite E; [reflexivity | past_guard].
Qed.

Lemma nil_edge_human_loop_config :
  nil_edge expandSagemakerFlowDefinitionHumanLoopConfig
           flattenSagemakerFlowDefinitionHumanLoopConfig.
Proof.
  apply nil_edge_intro; [| | reflexivity]; intros l E;
    unfold expandSagemakerFlowDefinitionHumanLoopConfig;
    rewrite E; [reflexivity | past_guard].
Qed.

(** C10. Each of the five expand functions returns nil exactly when its
    input is empty or starts with a nil element; each flatten function turns
    nil into the empty, allocated list; hence flattening the expansion of an
    empty list gives the empty list and expanding the flattening of nil
    gives nil. *)
Theorem expand_flatten_nil_edges
    (DecodeJSONValue : string -> JSONValue * option error)
    (EncodeJSONValue : JSONValue -> string * option error) :
  nil_edge
    (expandSagemakerFlowDefinitionHumanLoopActivationConfig DecodeJSONValue)
    (flattenSagemakerFlowDefinitionHumanLoopActivationConfig EncodeJSONValue) /\
  nil_edge
    (expandSagemakerFlowDefinitionHumanLoopActivationConditionsConfig
       DecodeJSONValue)
    (flattenSagemakerFlowDefinitionHumanLoopActivationConditionsConfig
       EncodeJSONValue) /\
  nil_edge expandSagemakerFlowDefinitionOutputConfig
           flattenSagemakerFlowDefinitionOutputConfig /\
  nil_edge expandSagemakerFlowDefinitionHumanLoopRequestSource
           flattenSagemakerFlowDefinitionHumanLoopRequestSource /\
  nil_edge expandSagemakerFlowDefinitionHumanLoopConfig
           flattenSagemakerFlowDefinitionHumanLoopConfig.
Proof.
  split; [apply nil_edge_human_loop_activation_config | ].
  split; [apply nil_edge_human_loop_activation_conditions_config | ].
  split; [apply nil_edge_output_config | ].
  split; [apply nil_edge_human_loop_request_source | ].
  apply nil_edge_human_loop_config.
Qed.

(** ** Round trips *)

Lemma index_insert_eq (m : gmap string value) (k : string) (v : value) :
  index (<[ k := v ]> m) k = v.
Proof. unfold index. now rewrite lookup_insert_eq. Qed.

Lemma index_insert_ne (m : gmap string value) (k k' : string) (v : value) :
  k <> k' -> index (<[ k := v ]> m) k' = index m k'.
Proof. intros H. unfold index. now rewrite lookup_insert_ne. Qed.

Lemma index_singleton_eq (k : string) (v : value) :
  index ({[ k := v ]} : gmap string value) k = v.
Proof. unfold index. now rewrite lookup_singleton_eq. Qed.

Lemma index_singleton_ne (k k' : string) (v : value) :
  k <> k' -> index ({[ k := v ]} : gmap string value) k' = VNil.
Proof. intros H. unfold index. now rewrite lookup_singleton_ne. Qed.

(** Reading the attribute [k] of a block written out with its keys. *)
Ltac index_of_block :=
  repeat first
    [ rewrite index_insert_eq
    | rewrite index_singleton_eq
    | rewrite index_insert_ne by discriminate
    | rewrite index_singleton_ne by discriminate ].

(** C4. Flattening the expansion of a one-element [output_config] list whose
    block holds [s3_output_path] and [kms_key_id] as strings, the latter
    possibly empty, gives the list back. *)
Theorem output_config_round_trip (s3_output_path kms_key_id : string) :
  let l := Slice [VMap (output_config_block s3_output_path kms_key_id)] in
  flatten_after_expand expandSagemakerFlowDefinitionOutputConfig
    flattenSagemakerFlowDefinitionOutputConfig l = Ok l.
Proof.
  intros l. unfold l. clear l.
  unfold flatten_after_expand, expandSagemakerFlowDefinitionOutputConfig,
    output_config_block.
  cbn [empty_or_nil len slice_elems length Nat.eqb first is_nil orb
       assert_map rbind].
  index_of_block. cbn [assert_string string_ok rbind].
  destruct (String.eqb_spec kms_key_id "") as [-> | Hne]; reflexivity.
Qed.

Lemma flattenStringSet_expandStringSet (s : gset string) :
  flattenStringSet (expandStringSet s) = s.
Proof.
  unfold flattenStringSet, expandStringSet. simpl.
  rewrite List.map_map. simpl. rewrite List.map_id.
  apply list_to_set_elements_L.
Qed.

Lemma size_pos_of_nonempty (s : gset string) :
  s <> ∅ -> (0 <? size s)%nat = true.
Proof.
  intros H. apply Nat.ltb_lt.
  destruct (size s) eqn:E; [ | lia].
  apply size_empty_inv in E. apply leibniz_equiv in E. contradiction.
Qed.

(** C1, as the code has it. Flattening the expansion of a one-element
    [human_loop_config] list whose block holds the four strings, the three
    integers and [task_keywords] either left out or a non-empty set gives
    the list back with the three integers held as [int64] instead of
    [int]: same attributes, same numbers, same strings, same set. *)
Theorem human_loop_config_round_trip_int64
    (human_task_ui_arn task_description task_title workteam_arn : string)
    (task_count task_availability_lifetime_in_seconds
       task_time_limit_in_seconds : Z)
    (task_keywords : option (gset string)) :
  task_keywords <> Some ∅ ->
  flatten_after_expand expandSagemakerFlowDefinitionHumanLoopConfig
    flattenSagemakerFlowDefinitionHumanLoopConfig
    (Slice [VMap (human_loop_config_block VInt human_task_ui_arn
                    task_description task_title workteam_arn task_count
                    task_availability_lifetime_in_seconds
                    task_time_limit_in_seconds task_keywords)])
  = Ok (Slice [VMap (human_loop_config_block VInt64 human_task_ui_arn
                       task_description task_title workteam_arn task_count
                       task_availability_lifetime_in_seconds
                       task_time_limit_in_seconds task_keywords)]).
Proof.
  intros Hkw.
  unfold flatten_after_expand, expandSagemakerFlowDefinitionHumanLoopConfig.
  cbn [empty_or_nil len slice_elems length Nat.eqb first is_nil orb
       assert_map rbind].
  destruct task_keywords as [s | ]; unfold human_loop_config_block.
  - index_of_block. cbn [assert_string assert_int rbind].
    unfold with_TaskTimeLimitInSeconds, with_TaskAvailabilityLifetimeInSeconds,
      with_TaskKeywords.
    index_of_block. cbn [set_ok int_ok].
    rewrite (size_pos_of_nonempty s) by congruence.
    cbn -[expandStringSet flattenStringSet].
    unfold put_task_time_limit_in_seconds,
      put_task_availability_lifetime_in_seconds, put_task_keywords.
    cbn -[expandStringSet flattenStringSet].
    rewrite flattenStringSet_expandStringSet.
    change (slice_is_nil (expandStringSet s)) with false. cbv iota.
    reflexivity.
  - index_of_block. cbn [assert_string assert_int rbind].
    unfold with_TaskTimeLimitInSeconds, with_TaskAvailabilityLifetimeInSeconds,
      with_TaskKeywords.
    index_of_block. cbn [set_ok int_ok].
    unfold put_task_time_limit_in_seconds,
      put_task_availability_lifetime_in_seconds, put_task_keywords.
    cbn.
    reflexivity.
Qed.

Lemma human_loop_config_round_trip_int64_witness :
  flatten_after_expand expandSagemakerFlowDefinitionHumanLoopConfig
    flattenSagemakerFlowDefinitionHumanLoopConfig
    (Slice [VMap (human_loop_config_block VInt "arn:aws:sagemaker:ui"
                    "Review the image" "Review" "arn:aws:sagemaker:team"
                    1 3600 600 (Some {[ "image" ]}))])
  = Ok (Slice [VMap (human_loop_config_block VInt64 "arn:aws:sagemaker:ui"
                       "Review the image" "Review" "arn:aws:sagemaker:team"
                       1 3600 600 (Some {[ "image" ]}))]).
Proof.
  apply (human_loop_config_round_trip_int64 "arn:aws:sagemaker:ui"
           "Review the image" "Review" "arn:aws:sagemaker:team"
           1 3600 600 (Some {[ "image" ]})).
  intros H.
  apply (f_equal (fun o : option (gset string) => size (default ∅ o))) in H.
  vm_compute in H. discriminate H.
Defined.

(** C1, as it is stated, fails: the block comes back with [task_count] held
    as an [int64], which is not the [int] it went in as. *)
Lemma human_loop_config_round_trip_counterexample :
  let l := Slice [VMap (human_loop_config_block VInt "arn:aws:sagemaker:ui"
                          "Review the image" "Review" "arn:aws:sagemaker:team"
                          1 3600 600 None)] in
  flatten_after_expand expandSagemakerFlowDefinitionHumanLoopConfig
    flattenSagemakerFlowDefinitionHumanLoopConfig l <> Ok l.
Proof.
  intros l H. unfold l in H. clear l.
  apply (f_equal (fun r : result (slice value) =>
                    match r with
                    | Ok (Slice [VMap m]) => m !! "task_count"
                    | _ => None
                    end)) in H.
  vm_compute in H. discriminate H.
Qed.

(** The two integer types are told apart by the code itself: the expand
    function asserts [int] and panics on what the flatten function wrote. *)
Lemma expand_flattened_human_loop_config_panics (c : HumanLoopConfig) :
  expandSagemakerFlowDefinitionHumanLoopConfig
    (as_interfaces (flattenSagemakerFlowDefinitionHumanLoopConfig (Some c)))
  = Panic.
Proof.
  unfold expandSagemakerFlowDefinitionHumanLoopConfig,
    flattenSagemakerFlowDefinitionHumanLoopConfig.
  cbn [as_interfaces slice_map List.map empty_or_nil len slice_elems length
       Nat.eqb first is_nil orb assert_map rbind].
  unfold put_task_time_limit_in_seconds,
    put_task_availability_lifetime_in_seconds, put_task_keywords.
  destruct (TaskTimeLimitInSeconds c), (TaskAvailabilityLifetimeInSeconds c),
    (slice_is_nil (TaskKeywords c));
    index_of_block; reflexivity.
Qed.

(** ** Dropped codec errors *)

(** C9. Whatever string the block holds and whatever the decoder answers
    for it, error or not, the expand function returns a config, the one
    holding the decoder's value, and does not panic; whatever the encoder
    answers, the flatten function returns a list of exactly one block for a
    config that is not nil. *)
Theorem activation_conditions_codec_errors_dropped
    (DecodeJSONValue : string -> JSONValue * option error)
    (EncodeJSONValue : JSONValue -> string * option error) :
  (forall (m : gmap string value) (s : string),
     expandSagemakerFlowDefinitionHumanLoopActivationConditionsConfig
       DecodeJSONValue
       (Slice [VMap (<[ "human_loop_activation_conditions" := VString s ]> m)])
     = Ok (Some {| HumanLoopActivationConditions := fst (DecodeJSONValue s) |})) /\
  (forall c : HumanLoopActivationConditionsConfig,
     flattenSagemakerFlowDefinitionHumanLoopActivationConditionsConfig
       EncodeJSONValue (Some c)
     = Slice [ {[ "human_loop_activation_conditions" :=
                  VString (fst (EncodeJSONValue
                                  (HumanLoopActivationConditions c))) ]} ] /\
     len (flattenSagemakerFlowDefinitionHumanLoopActivationConditionsConfig
            EncodeJSONValue (Some c)) = 1%nat).
Proof.
  split.
  - intros m s.
    unfold expandSagemakerFlowDefinitionHumanLoopActivationConditionsConfig.
    cbn [empty_or_nil len slice_elems length Nat.eqb first is_nil orb
         assert_map rbind].
    rewrite index_insert_eq. cbn [assert_string rbind].
    destruct (DecodeJSONValue s); reflexivity.
  - intros c.
    unfold flattenSagemakerFlowDefinitionHumanLoopActivationConditionsConfig.
    destruct (EncodeJSONValue (HumanLoopActivationConditions c)).
    split; reflexivity.
Qed.

(** ** Error classification *)

Lemma prefix_app (sub s : string) :
  String.prefix sub s = true <-> exists after, s = sub ++ after.
Proof.
  revert s. induction sub as [ | c sub IH]; intros s; simpl.
  - split; [intros _; now exists s | intros _; now destruct s].
  - destruct s as [ | c' s]; simpl.
    + split; [discriminate | intros [after H]; discriminate H].
    + destruct (Ascii.ascii_dec c c') as [-> | Hne].
      * rewrite IH. split; intros [after H]; exists after.
        -- now rewrite H.
        -- now injection H.
      * split; [discriminate | ].
        intros [after H]. injection H as H _. congruence.
Qed.

(** [Contains] finds exactly the strings that have [substr] in them. *)
Lemma Contains_app (s substr : string) :
  Contains s substr = true <->
  exists before after, s = before ++ substr ++ after.
Proof.
  induction s as [ | c s IH].
  - cbn [Contains]. rewrite orb_false_r, prefix_app. split.
    + intros [after H]. now exists "", after.
    + intros [before [after H]]. destruct before; simpl in H.
      * now exists after.
      * discriminate H.
  - cbn [Contains]. rewrite orb_true_iff, prefix_app, IH. split.
    + intros [[after H] | [before [after H]]].
      * now exists "", after.
      * exists (String c before), after. simpl. now rewrite H.
    + intros [before [after H]]. destruct before as [ | c' before]; simpl in H.
      * left. now exists after.
      * right. injection H as _ H. now exists before, after.
Qed.

Lemma ErrMessageContains_work_team (e : error) :
  ErrMessageContains (Some e) "ValidationException" "The work team" = true
  <-> work_team_validation e.
Proof.
  unfold ErrMessageContains, work_team_validation.
  destruct (as_awserr e) as [[c m] | ].
  - rewrite andb_true_iff, String.eqb_eq, Contains_app. split.
    + intros [-> [before [after H]]]. now exists m, before, after.
    + intros [m' [before [after [H1 H2]]]]. injection H1 as -> ->.
      split; [reflexivity | now exists before, after].
  - split; [discriminate | ].
    intros [m' [before [after [H1 H2]]]]. discriminate H1.
Qed.

Section Crud.

Variables World KeyValueTags DefaultConfig IgnoreConfig : Type.
Variable meta : AWSClient World KeyValueTags DefaultConfig IgnoreConfig.
Variable DecodeJSONValue : string -> JSONValue * option error.
Variable EncodeJSONValue : JSONValue -> string * option error.

Let conn := sagemakerconn _ _ _ _ meta.
Let Read := resourceAwsSagemakerFlowDefinitionRead _ _ _ _ meta EncodeJSONValue.
Let Create :=
  resourceAwsSagemakerFlowDefinitionCreate _ _ _ _ meta
    DecodeJSONValue EncodeJSONValue.
Let Update :=
  resourceAwsSagemakerFlowDefinitionUpdate _ _ _ _ meta EncodeJSONValue.
Let Delete := resourceAwsSagemakerFlowDefinitionDelete _ _ _ _ meta.

(** The state after the call [c] was answered with the service in [w]. *)
Let after (st : Exec World) (c : call) (w : World) : Exec World :=
  {| data := data _ st; remote := w; calls := calls _ st ++ [c] |}.

(** C8. Delete returns nil when DeleteFlowDefinition succeeds or fails with
    a ValidationException whose message has "The work team" in it, and the
    error wrapped with the resource's ID for every other error. *)
Theorem delete_error_classification (st : Exec World) :
  let id := Id (data _ st) in
  let '(err, w) := DeleteFlowDefinition _ _ conn id (remote _ st) in
  let st' := after st (DeleteFlowDefinitionCall id) w in
  match err with
  | None => Delete st = Ok (None, st')
  | Some e =>
      (work_team_validation e -> Delete st = Ok (None, st')) /\
      (~ work_team_validation e ->
       Delete st =
       Ok (Some (Errorf ("error deleting SageMaker Flow Definition (" ++ id ++ ")") e),
           st'))
  end.
Proof.
  intros id. subst Delete conn after.
  unfold resourceAwsSagemakerFlowDefinitionDelete, issue. fold id.
  destruct (DeleteFlowDefinition _ _ _ id (remote _ st)) as [[e | ] w]; cbv zeta.
  - destruct (ErrMessageContains (Some e) "ValidationException" "The work team")
      eqn:E.
    + split; [reflexivity | ].
      intros Hn. exfalso. apply Hn. now apply ErrMessageContains_work_team.
    + split; [ | reflexivity].
      intros Hw. apply ErrMessageContains_work_team in Hw. congruence.
  - reflexivity.
Qed.

(** C2. For a resource that is not new: when the lookup by the stored ID
    reports not-found, Read empties the ID, touches nothing else and returns
    nil; for every other lookup error it returns that error wrapped with the
    ID and leaves the resource data, the ID with it, as they were. *)
Theorem read_drift_detection (st : Exec World) :
  IsNewResource (data _ st) = false ->
  let id := Id (data _ st) in
  let '((flowDefinition, err), w) :=
    FlowDefinitionByName _ _ conn id (remote _ st) in
  let st' := after st (FlowDefinitionByNameCall id) w in
  (NotFound err = true ->
   Read st = Ok (None, with_data _ (SetId "" (data _ st)) st') /\
   Id (SetId "" (data _ st)) = "") /\
  (forall e, err = Some e -> NotFound err = false ->
   Read st =
   Ok (Some (Errorf ("error reading SageMaker Flow Definition (" ++ id ++ ")") e),
       st') /\
   Id (data _ st') = id).
Proof.
  intros Hnew id. subst Read conn after.
  unfold resourceAwsSagemakerFlowDefinitionRead, issue. fold id.
  destruct (FlowDefinitionByName _ _ _ id (remote _ st)) as [[fd err] w].
  cbv zeta. cbn [data]. rewrite Hnew. cbn [negb andb]. split.
  - intros ->. split; reflexivity.
  - intros e -> ->. split; reflexivity.
Qed.

(** What Read issues: lookups only, and nothing that changes a non-tag
    attribute of the service. *)
Lemma Read_issues_lookups (st st' : Exec World) (r : option error) :
  Read st = Ok (r, st') ->
  exists issued,
    calls _ st' = (calls _ st ++ issued)%list /\
    List.filter mutating issued = [] /\
    forall (X : Type) (attr : World -> X),
      non_tag_attribute conn attr -> attr (remote _ st') = attr (remote _ st).
Proof.
  subst Read conn.
  unfold resourceAwsSagemakerFlowDefinitionRead, issue.
  set (id := Id (data _ st)).
  pose proof (fun X (attr : World -> X) (H : non_tag_attribute (sagemakerconn _ _ _ _ meta) attr) =>
                proj1 H id (remote _ st)) as Hby.
  destruct (FlowDefinitionByName _ _ _ id (remote _ st)) as [[fd err] w].
  cbv zeta. cbn [data remote calls snd] in *.
  destruct (negb (IsNewResource (data _ st)) && NotFound err).
  { intros [= <- <-]. exists [FlowDefinitionByNameCall id].
    repeat split. intros X attr H. apply (Hby X attr H). }
  destruct err as [e | ].
  { intros [= <- <-]. exists [FlowDefinitionByNameCall id].
    repeat split. intros X attr H. apply (Hby X attr H). }
  destruct fd as [fd | ]; [ | discriminate].
  destruct (read_set_definition _ _ _ _ _ _ fd (data _ st)) as [d [e | ]].
  { intros [= <- <-]. exists [FlowDefinitionByNameCall id].
    repeat split. intros X attr H. apply (Hby X attr H). }
  cbn [remote calls data with_data].
  set (arn := StringValue (DescribeFlowDefinitionOutput.FlowDefinitionArn fd)).
  pose proof (fun X (attr : World -> X) (H : non_tag_attribute (sagemakerconn _ _ _ _ meta) attr) =>
                proj1 (proj2 H) arn w) as Hlist.
  destruct (SagemakerListTags _ _ _ arn w) as [[tags err] w'].
  cbn [remote calls data with_data snd] in *.
  destruct err as [e | ].
  { intros [= <- <-]. exists [FlowDefinitionByNameCall id; ListTagsCall arn].
    cbn [calls remote]. rewrite <- List.app_assoc. repeat split.
    intros X attr H. rewrite (Hlist X attr H). apply (Hby X attr H). }
  destruct (read_set_tags _ _ _ _ _ tags d) as [d' err].
  intros [= <- <-]. exists [FlowDefinitionByNameCall id; ListTagsCall arn].
  cbn [calls remote with_data]. rewrite <- List.app_assoc. repeat split.
  intros X attr H. rewrite (Hlist X attr H). apply (Hby X attr H).
Qed.

Ltac get_map H key m :=
  destruct (Get _ key) as [ | ? | ? | ? | ? | ? | m | ?] eqn:?;
  cbn [assert_map rbind] in H; try discriminate H.

Ltac get_string H key s :=
  destruct (Get _ key) as [ | s | ? | ? | ? | ? | ? | ?] eqn:?;
  cbn [assert_string rbind] in H; try discriminate H.

Ltac get_list H key l :=
  destruct (Get _ key) as [ | ? | ? | ? | ? | l | ? | ?] eqn:?;
  cbn [assert_list rbind] in H; try discriminate H.

Ltac returned H r x :=
  destruct r as [x | ] eqn:?; cbn [rbind] in H; [ | discriminate H].

(** C3. When the configuration is one the input can be built from, the
    input holds the name, the role and the expansions of the config blocks;
    Create issues CreateFlowDefinition with it; if the call fails Create
    returns the error wrapped with the name and the resource data, the ID
    with it, are as before; if it succeeds Create sets the ID to the name
    and returns what Read returns from there. *)
Theorem create_maps_configuration
    (st : Exec World) (input : CreateFlowDefinitionInput.t) :
  create_input _ _ _ _ meta DecodeJSONValue (data _ st) = Ok input ->
  let d := data _ st in
  let name :=
    StringValue (CreateFlowDefinitionInput.FlowDefinitionName input) in
  (exists role hlc oc,
     Get d "flow_definition_name" = VString name /\
     Get d "role_arn" = VString role /\
     Get d "human_loop_config" = VList hlc /\
     Get d "output_config" = VList oc /\
     CreateFlowDefinitionInput.FlowDefinitionName input = Some name /\
     CreateFlowDefinitionInput.RoleArn input = Some role /\
     expandSagemakerFlowDefinitionHumanLoopConfig hlc
       = Ok (CreateFlowDefinitionInput.HumanLoopConfig input) /\
     expandSagemakerFlowDefinitionOutputConfig oc
       = Ok (CreateFlowDefinitionInput.OutputConfig input)) /\
  (forall l, Get d "human_loop_activation_config" = VList l ->
     if (0 <? len l)%nat
     then expandSagemakerFlowDefinitionHumanLoopActivationConfig
            DecodeJSONValue l
          = Ok (CreateFlowDefinitionInput.HumanLoopActivationConfig input)
     else CreateFlowDefinitionInput.HumanLoopActivationConfig input = None) /\
  (forall l, Get d "human_loop_request_source" = VList l ->
     if (0 <? len l)%nat
     then expandSagemakerFlowDefinitionHumanLoopRequestSource l
          = Ok (CreateFlowDefinitionInput.HumanLoopRequestSource input)
     else CreateFlowDefinitionInput.HumanLoopRequestSource input = None) /\
  let '(err, w) := CreateFlowDefinition _ _ conn input (remote _ st) in
  let st' := after st (CreateFlowDefinitionCall input) w in
  match err with
  | Some e =>
      Create st =
      Ok (Some (Errorf ("error creating SageMaker Flow Definition (" ++ name ++ ")") e),
          st') /\
      data _ st' = d /\ Id (data _ st') = Id d
  | None =>
      Create st = Read (with_data _ (SetId name (data _ st')) st') /\
      Id (SetId name (data _ st')) = name
  end.
Proof.
  intros Hin d name.
  split; [ | split; [ | split]].
  - unfold create_input in Hin. fold d in Hin.
    get_map Hin "tags" tagmap.
    get_string Hin "flow_definition_name" nm.
    get_list Hin "human_loop_config" hlc_l.
    returned Hin (expandSagemakerFlowDefinitionHumanLoopConfig hlc_l) hlc.
    get_string Hin "role_arn" role.
    get_list Hin "output_config" oc_l.
    returned Hin (expandSagemakerFlowDefinitionOutputConfig oc_l) oc.
    returned Hin (optional_block d "human_loop_activation_config"
                    (expandSagemakerFlowDefinitionHumanLoopActivationConfig
                       DecodeJSONValue)) hlac.
    returned Hin (optional_block d "human_loop_request_source"
                    expandSagemakerFlowDefinitionHumanLoopRequestSource) hlrs.
    injection Hin as <-. subst name. cbn.
    exists role, hlc_l, oc_l. repeat split; assumption.
  - intros l Hl. unfold create_input in Hin. fold d in Hin.
    get_map Hin "tags" tagmap.
    get_string Hin "flow_definition_name" nm.
    get_list Hin "human_loop_config" hlc_l.
    returned Hin (expandSagemakerFlowDefinitionHumanLoopConfig hlc_l) hlc.
    get_string Hin "role_arn" role.
    get_list Hin "output_config" oc_l.
    returned Hin (expandSagemakerFlowDefinitionOutputConfig oc_l) oc.
    unfold optional_block at 1, GetOk in Hin. rewrite Hl in Hin.
    cbn [is_zero assert_list rbind] in Hin.
    destruct (len l) eqn:El; cbn [Nat.eqb Nat.ltb Nat.leb negb] in Hin |- *.
    + cbn [rbind] in Hin.
      returned Hin (optional_block d "human_loop_request_source"
                      expandSagemakerFlowDefinitionHumanLoopRequestSource) hlrs.
      injection Hin as <-. reflexivity.
    + returned Hin (expandSagemakerFlowDefinitionHumanLoopActivationConfig
                      DecodeJSONValue l) hlac.
      returned Hin (optional_block d "human_loop_request_source"
                      expandSagemakerFlowDefinitionHumanLoopRequestSource) hlrs.
      injection Hin as <-. reflexivity.
  - intros l Hl. unfold create_input in Hin. fold d in Hin.
    get_map Hin "tags" tagmap.
    get_string Hin "flow_definition_name" nm.
    get_list Hin "human_loop_config" hlc_l.
    returned Hin (expandSagemakerFlowDefinitionHumanLoopConfig hlc_l) hlc.
    get_string Hin "role_arn" role.
    get_list Hin "output_config" oc_l.
    returned Hin (expandSagemakerFlowDefinitionOutputConfig oc_l) oc.
    returned Hin (optional_block d "human_loop_activation_config"
                    (expandSagemakerFlowDefinitionHumanLoopActivationConfig
                       DecodeJSONValue)) hlac.
    unfold optional_block, GetOk in Hin. rewrite Hl in Hin.
    cbn [is_zero assert_list rbind] in Hin.
    destruct (len l) eqn:El; cbn [Nat.eqb Nat.ltb Nat.leb negb] in Hin |- *.
    + cbn [rbind] in Hin. injection Hin as <-. reflexivity.
    + returned Hin (expandSagemakerFlowDefinitionHumanLoopRequestSource l) hlrs.
      injection Hin as <-. reflexivity.
  - subst Create Read conn after.
    unfold resourceAwsSagemakerFlowDefinitionCreate, issue.
    rewrite Hin. cbn [rbind]. fold name.
    destruct (CreateFlowDefinition _ _ _ input (remote _ st)) as [[e | ] w];
      cbv zeta; repeat split.
Qed.

(** C7, as the code has it. Update issues the tag update exactly when
    [tags_all] has changed and no other call that changes the remote
    resource; whatever it issues leaves every non-tag attribute of the
    service as it was; and it returns what Read returns, unless the tag
    update fails: then it returns that error wrapped with the ID and issues
    no lookup. *)
Theorem update_reconciles_only_tags (st : Exec World) (arn : string) :
  Get (data _ st) "arn" = VString arn ->
  let d := data _ st in
  let '(o, n) := GetChange d "tags_all" in
  let tag_update := UpdateTagsCall arn o n in
  (if HasChange d "tags_all" then
     let '(err, w) := SagemakerUpdateTags _ _ conn arn o n (remote _ st) in
     match err with
     | Some e =>
         Update st =
         Ok (Some (Errorf
               ("error updating SageMaker Flow Definition (" ++ Id d ++ ") tags")
               e),
             after st tag_update w)
     | None => Update st = Read (after st tag_update w)
     end
   else Update st = Read st) /\
  (forall r st', Update st = Ok (r, st') ->
     exists issued,
       calls _ st' = (calls _ st ++ issued)%list /\
       List.filter mutating issued
         = (if HasChange d "tags_all" then [tag_update] else []) /\
       forall (X : Type) (attr : World -> X),
         non_tag_attribute conn attr ->
         attr (remote _ st') = attr (remote _ st)).
Proof.
  intros Harn d. subst d.
  destruct (GetChange (data _ st) "tags_all") as [o n] eqn:Echange.
  cbv zeta. subst Update.
  unfold resourceAwsSagemakerFlowDefinitionUpdate, issue.
  rewrite Echange, Harn. cbn [assert_string rbind].
  destruct (HasChange (data _ st) "tags_all").
  - pose proof (fun X (attr : World -> X)
                  (H : non_tag_attribute (sagemakerconn _ _ _ _ meta) attr) =>
                  proj2 (proj2 H) arn o n (remote _ st)) as Hupd.
    fold conn in Hupd |- *.
    destruct (SagemakerUpdateTags _ _ conn arn o n (remote _ st))
      as [[e | ] w]; cbn [snd] in Hupd.
    + split; [reflexivity | ].
      intros r st' [= <- <-]. exists [UpdateTagsCall arn o n].
      repeat split. intros X attr H. apply (Hupd X attr H).
    + split; [reflexivity | ].
      intros r st' Hread.
      destruct (Read_issues_lookups _ _ _ Hread) as [issued [Hc [Hm Hf]]].
      exists (UpdateTagsCall arn o n :: issued).
      cbn [calls remote] in Hc, Hf.
      split; [ | split].
      * rewrite Hc, <- List.app_assoc. reflexivity.
      * cbn [List.filter mutating]. now rewrite Hm.
      * intros X attr H. rewrite (Hf X attr H). apply (Hupd X attr H).
  - split; [reflexivity | ].
    intros r st' Hread.
    destruct (Read_issues_lookups _ _ _ Hread) as [issued [Hc [Hm Hf]]].
    exists issued. repeat split; assumption.
Qed.

End Crud.

Lemma read_drift_detection_witness :
  resourceAwsSagemakerFlowDefinitionRead _ _ _ _ InMemory.meta
    InMemory.failing_encode (InMemory.start InMemory.stored [])
  = Ok (None,
        {| data := SetId "" InMemory.stored; remote := [];
           calls := [FlowDefinitionByNameCall "review"] |}).
Proof.
  pose proof (read_drift_detection _ _ _ _ InMemory.meta
                InMemory.failing_encode (InMemory.start InMemory.stored [])
                eq_refl) as H.
  cbv zeta in H. cbn in H. destruct H as [H _].
  destruct (H eq_refl) as [H' _]. exact H'.
Defined.

Lemma create_maps_configuration_witness :
  resourceAwsSagemakerFlowDefinitionCreate _ _ _ _ InMemory.meta
    InMemory.failing_decode InMemory.failing_encode
    (InMemory.start InMemory.planned [])
  = resourceAwsSagemakerFlowDefinitionRead _ _ _ _ InMemory.meta
      InMemory.failing_encode
      {| data := SetId "review" InMemory.planned;
         remote := InMemory.created;
         calls := [CreateFlowDefinitionCall InMemory.input] |}.
Proof.
  assert (Hin : create_input _ _ _ _ InMemory.meta InMemory.failing_decode
                  (data _ (InMemory.start InMemory.planned []))
                = Ok InMemory.input) by (vm_compute; reflexivity).
  pose proof (create_maps_configuration _ _ _ _ InMemory.meta
                InMemory.failing_decode InMemory.failing_encode
                (InMemory.start InMemory.planned []) InMemory.input Hin) as H.
  destruct H as [_ [_ [_ H]]]. exact (proj1 H).
Defined.

Lemma update_reconciles_only_tags_witness :
  resourceAwsSagemakerFlowDefinitionUpdate _ _ _ _ InMemory.meta
    InMemory.failing_encode (InMemory.start InMemory.stored InMemory.created)
  = resourceAwsSagemakerFlowDefinitionRead _ _ _ _ InMemory.meta
      InMemory.failing_encode
      {| data := InMemory.stored;
         remote := InMemory.created;
         calls := [UpdateTagsCall "arn:aws:sagemaker:flow-definition/review"
                     (VMap ∅) (VMap ∅)] |}.
Proof.
  assert (Harn : Get (data _ (InMemory.start InMemory.stored InMemory.created))
                   "arn"
                 = VString "arn:aws:sagemaker:flow-definition/review")
    by (vm_compute; reflexivity).
  pose proof (update_reconciles_only_tags _ _ _ _ InMemory.meta
                InMemory.failing_encode
                (InMemory.start InMemory.stored InMemory.created)
                "arn:aws:sagemaker:flow-definition/review" Harn) as H.
  exact (proj1 H).
Defined.

(** C7, as it is stated, fails: when the tag update is refused, Update
    returns the wrapped error of the tag update, which Read returns from no
    state, and issues no lookup. *)
Lemma update_returns_read_counterexample :
  let Update :=
    resourceAwsSagemakerFlowDefinitionUpdate _ _ _ _ InMemory.meta_tags_denied
      InMemory.failing_encode in
  let Read :=
    resourceAwsSagemakerFlowDefinitionRead _ _ _ _ InMemory.meta_tags_denied
      InMemory.failing_encode in
  let st := InMemory.start InMemory.stored InMemory.created in
  Update st =
    Ok (Some (Errorf "error updating SageMaker Flow Definition (review) tags"
                (AwsError "AccessDeniedException" "not authorized")),
        {| data := InMemory.stored; remote := InMemory.created;
           calls := [UpdateTagsCall "arn:aws:sagemaker:flow-definition/review"
                       (VMap ∅) (VMap ∅)] |}) /\
  ~ exists st', Update st = Read st'.
Proof.
  intros Update Read st.
  assert (HU : Update st =
    Ok (Some (Errorf "error updating SageMaker Flow Definition (review) tags"
                (AwsError "AccessDeniedException" "not authorized")),
        {| data := InMemory.stored; remote := InMemory.created;
           calls := [UpdateTagsCall "arn:aws:sagemaker:flow-definition/review"
                       (VMap ∅) (VMap ∅)] |}))
    by (vm_compute; reflexivity).
  split; [exact HU | ].
  intros [st' H]. rewrite HU in H. subst Read.
  unfold resourceAwsSagemakerFlowDefinitionRead, issue in H.
  cbn [sagemakerconn InMemory.meta_tags_denied InMemory.conn_tags_denied
       InMemory.conn FlowDefinitionByName SagemakerListTags] in H.
  destruct (InMemory.find (Id (data _ st')) (remote _ st')) as [fd | ];
    cbn [data remote calls with_data] in H.
  - cbn [NotFound andb] in H. rewrite andb_false_r in H.
    unfold read_set_definition, read_set_tags, seq, set_checked,
      set_unchecked, Set_ in H.
    cbn in H. discriminate H.
  - cbn [NotFound as_not_found] in H.
    destruct (IsNewResource (data _ st')); cbn in H.
    + injection H as H _. discriminate H.
    + discriminate H.
Qed.

(** ** The matcher computes the language *)

Lemma append_nil_l (s : string) : "" ++ s = s.
Proof. reflexivity. Qed.

Lemma append_cons (c : ascii) (s t : string) :
  String c s ++ t = String c (s ++ t).
Proof. reflexivity. Qed.

Lemma append_nil_r (s : string) : s ++ "" = s.
Proof.
  induction s as [ | c s IH]; [reflexivity | ].
  now rewrite append_cons, IH.
Qed.

Lemma append_assoc (s1 s2 s3 : string) : (s1 ++ s2) ++ s3 = s1 ++ (s2 ++ s3).
Proof.
  induction s1 as [ | c s1 IH]; [reflexivity | ].
  now rewrite !append_cons, IH.
Qed.

Lemma append_eq_nil (s1 s2 : string) : s1 ++ s2 = "" -> s1 = "" /\ s2 = "".
Proof.
  destruct s1; [rewrite append_nil_l; now split | ].
  rewrite append_cons. discriminate.
Qed.

Lemma lang_Void_inv (s : string) : ~ lang Void s.
Proof. intros H. inversion H. Qed.

Lemma lang_Eps_inv (s : string) : lang Eps s -> s = "".
Proof. intros H. now inversion H. Qed.

Lemma lang_Class_inv (p : ascii -> bool) (s : string) :
  lang (Class p) s -> exists c, s = String c "" /\ p c = true.
Proof. intros H. inversion H; subst. eauto. Qed.

Lemma lang_Cat_inv (r1 r2 : regexp) (s : string) :
  lang (Cat r1 r2) s ->
  exists s1 s2, s = s1 ++ s2 /\ lang r1 s1 /\ lang r2 s2.
Proof. intros H. inversion H; subst. eauto. Qed.

Lemma lang_Alt_inv (r1 r2 : regexp) (s : string) :
  lang (Alt r1 r2) s -> lang r1 s \/ lang r2 s.
Proof. intros H. inversion H; subst; auto. Qed.

Lemma lang_cons_Cat (c : ascii) (r1 r2 : regexp) (s1 s2 : string) :
  lang r1 (String c s1) -> lang r2 s2 -> lang (Cat r1 r2) (String c (s1 ++ s2)).
Proof. intros H1 H2. rewrite <- append_cons. now constructor. Qed.

Lemma nullable_lang (r : regexp) : nullable r = true <-> lang r "".
Proof.
  induction r as [ | | p | r1 IH1 r2 IH2 | r1 IH1 r2 IH2 | r IH]; simpl.
  - split; [discriminate | intros H; now apply lang_Void_inv in H].
  - split; [intros _; constructor | reflexivity].
  - split; [discriminate | ].
    intros H. apply lang_Class_inv in H as [c [H _]]. discriminate H.
  - rewrite andb_true_iff, IH1, IH2. split.
    + intros [H1 H2]. rewrite <- (append_nil_l ""). now constructor.
    + intros H. apply lang_Cat_inv in H as [s1 [s2 [E [H1 H2]]]].
      symmetry in E. apply append_eq_nil in E as [-> ->]. now split.
  - rewrite orb_true_iff, IH1, IH2. split.
    + intros [H | H]; [now apply lang_Alt_l | now apply lang_Alt_r].
    + apply lang_Alt_inv.
  - split; [intros _; constructor | reflexivity].
Qed.

(** A non-empty string of a starred language starts with a non-empty
    string of the language. *)
Lemma lang_Star_cons (r : regexp) (c : ascii) (s : string) :
  lang (Star r) (String c s) ->
  exists s1 s2, s = s1 ++ s2 /\ lang r (String c s1) /\ lang (Star r) s2.
Proof.
  intros H. remember (Star r) as r' eqn:Er. remember (String c s) as w eqn:Ew.
  revert c s Ew.
  induction H as [ | | | | | | r0 s1 s2 H1 _ H2 IH2]; intros a t Ew;
    try discriminate Er; try discriminate Ew.
  injection Er as Er. subst r0.
  destruct s1 as [ | c1 s1].
  - rewrite append_nil_l in Ew. now apply IH2.
  - rewrite append_cons in Ew. injection Ew as Ha Ht. subst c1 t.
    now exists s1, s2.
Qed.

Lemma deriv_Cat_lang (c : ascii) (r1 r2 : regexp) (s : string) :
  (forall s, lang (deriv c r1) s <-> lang r1 (String c s)) ->
  (forall s, lang (deriv c r2) s <-> lang r2 (String c s)) ->
  lang (Cat r1 r2) (String c s) <->
  lang (Cat (deriv c r1) r2) s \/ (lang r1 "" /\ lang (deriv c r2) s).
Proof.
  intros IH1 IH2. split.
  - intros H. apply lang_Cat_inv in H as [s1 [s2 [E [H1 H2]]]].
    destruct s1 as [ | c1 s1].
    + rewrite append_nil_l in E. subst s2. right.
      split; [assumption | now apply IH2].
    + rewrite append_cons in E. injection E as Hc Hs. subst c1 s.
      left. constructor; [now apply IH1 | assumption].
  - intros [H | [H1 H2]].
    + apply lang_Cat_inv in H as [s1 [s2 [-> [H1 H2]]]].
      apply lang_cons_Cat; [now apply IH1 | assumption].
    + rewrite <- (append_nil_l (String c s)).
      constructor; [assumption | now apply IH2].
Qed.

Lemma deriv_lang (c : ascii) (r : regexp) (s : string) :
  lang (deriv c r) s <-> lang r (String c s).
Proof.
  revert s.
  induction r as [ | | p | r1 IH1 r2 IH2 | r1 IH1 r2 IH2 | r IH];
    intros s; simpl.
  - split; intros H; now apply lang_Void_inv in H.
  - split; intros H; [now apply lang_Void_inv in H | ].
    apply lang_Eps_inv in H. discriminate H.
  - destruct (p c) eqn:Ep; split; intros H.
    + apply lang_Eps_inv in H as ->. now constructor.
    + apply lang_Class_inv in H as [c' [[= <- ->] _]]. constructor.
    + now apply lang_Void_inv in H.
    + apply lang_Class_inv in H as [c' [[= <- ->] H]]. congruence.
  - rewrite (deriv_Cat_lang c r1 r2 s IH1 IH2).
    destruct (nullable r1) eqn:En.
    + split.
      * intros H. apply lang_Alt_inv in H as [H | H]; [now left | right].
        split; [now apply nullable_lang | assumption].
      * intros [H | [_ H]]; [now apply lang_Alt_l | now apply lang_Alt_r].
    + split; [now left | ].
      intros [H | [H _]]; [assumption | ].
      apply nullable_lang in H. congruence.
  - split; intros H.
    + apply lang_Alt_inv in H as [H | H];
        [apply lang_Alt_l; now apply IH1 | apply lang_Alt_r; now apply IH2].
    + apply lang_Alt_inv in H as [H | H];
        [apply lang_Alt_l; now apply IH1 | apply lang_Alt_r; now apply IH2].
  - split.
    + intros H. apply lang_Cat_inv in H as [s1 [s2 [-> [H1 H2]]]].
      rewrite <- append_cons. constructor; [now apply IH | assumption].
    + intros H. apply lang_Star_cons in H as [s1 [s2 [-> [H1 H2]]]].
      constructor; [now apply IH | assumption].
Qed.

Lemma MatchString_lang (r : regexp) (s : string) :
  MatchString r s = true <-> lang r s.
Proof.
  revert r. induction s as [ | c s IH]; intros r; simpl.
  - apply nullable_lang.
  - rewrite IH. apply deriv_lang.
Qed.

(** ** The name pattern *)

Lemma hyphen_not_alnum (c : ascii) :
  is_hyphen c = true -> lower_alnum c = false.
Proof.
  unfold is_hyphen. intros H. apply Ascii.eqb_eq in H as <-. reflexivity.
Qed.

Abbreviation name_block := (Cat (Star (Chr "-")) (Class lower_alnum)).

Lemma lang_block_single (c : ascii) :
  lower_alnum c = true -> lang name_block (String c "").
Proof.
  intros H. rewrite <- (append_nil_l (String c "")).
  constructor; [constructor | now constructor].
Qed.

Lemma lang_block_hyphen (c : ascii) (s : string) :
  is_hyphen c = true -> lang name_block s -> lang name_block (String c s).
Proof.
  intros Hc H. apply lang_Cat_inv in H as [h [a [-> [Hh Ha]]]].
  rewrite <- append_cons. constructor; [ | assumption].
  change (String c h) with (String c "" ++ h).
  constructor; [now constructor | assumption].
Qed.

Lemma name_tail_cons (b : bool) (c : ascii) (s : string) :
  name_tail b (String c s) = name_tail true (String c s).
Proof. reflexivity. Qed.

(** The automaton accepts only strings of the language. *)
Lemma name_tail_sound (s : string) :
  (name_tail true s = true -> lang (Star name_block) s) /\
  (name_tail false s = true -> lang (Cat name_block (Star name_block)) s).
Proof.
  induction s as [ | c s [IHready IHpending]].
  - split; [intros _; constructor | discriminate].
  - rewrite (name_tail_cons false). cbn [name_tail].
    destruct (lower_alnum c) eqn:Ea; [ | destruct (is_hyphen c) eqn:Eh].
    + assert (Hcat : name_tail true s = true ->
                     lang (Cat name_block (Star name_block)) (String c s)).
      { intros H. change (String c s) with (String c "" ++ s).
        constructor; [now apply lang_block_single | now apply IHready]. }
      split; [ | exact Hcat].
      intros H. change (String c s) with (String c "" ++ s).
      constructor; [now apply lang_block_single | now apply IHready].
    + assert (Hcat : name_tail false s = true ->
                     lang (Cat name_block (Star name_block)) (String c s)).
      { intros H. apply IHpending in H.
        apply lang_Cat_inv in H as [s1 [s2 [-> [H1 H2]]]].
        rewrite <- append_cons.
        constructor; [now apply lang_block_hyphen | assumption]. }
      split; [ | exact Hcat].
      intros H. apply Hcat in H.
      apply lang_Cat_inv in H as [s1 [s2 [-> [H1 H2]]]].
      now constructor.
    + split; discriminate.
Qed.

Lemma name_tail_hyphens (h : string) :
  lang (Star (Chr "-")) h ->
  forall (b : bool) (a : ascii) (rest : string),
    lower_alnum a = true ->
    name_tail b (h ++ String a rest) = name_tail true rest.
Proof.
  intros H. remember (Star (Chr "-")) as r eqn:Er.
  induction H as [ | | | | | | r0 s1 s2 H1 _ H2 IH2];
    try discriminate Er; intros b a rest Ha.
  - rewrite append_nil_l. cbn [name_tail]. now rewrite Ha.
  - injection Er as Er. subst r0.
    apply lang_Class_inv in H1 as [c [-> Hc]].
    rewrite append_assoc, append_cons, append_nil_l. cbn [name_tail].
    rewrite (hyphen_not_alnum c Hc). change (is_hyphen c) with (Ascii.eqb "-" c).
    rewrite Hc. now apply IH2.
Qed.

Lemma name_tail_block (s1 : string) :
  lang name_block s1 ->
  forall (b : bool) (rest : string),
    name_tail b (s1 ++ rest) = name_tail true rest.
Proof.
  intros H b rest. apply lang_Cat_inv in H as [h [a [-> [Hh Ha]]]].
  apply lang_Class_inv in Ha as [c [-> Hc]].
  rewrite append_assoc, append_cons, append_nil_l.
  now apply name_tail_hyphens.
Qed.

(** The automaton accepts every string of the language. *)
Lemma name_tail_complete (s : string) :
  lang (Star name_block) s -> name_tail true s = true.
Proof.
  intros H. remember (Star name_block) as r eqn:Er.
  induction H as [ | | | | | | r0 s1 s2 H1 _ H2 IH2]; try discriminate Er.
  - reflexivity.
  - injection Er as Er. subst r0.
    rewrite (name_tail_block s1 H1). now apply IH2.
Qed.

Lemma MatchString_name_automaton (s : string) :
  MatchString flow_definition_name_regexp s = name_automaton s.
Proof.
  apply eq_true_iff_eq. rewrite MatchString_lang.
  unfold flow_definition_name_regexp. split.
  - intros H. apply lang_Cat_inv in H as [s1 [s2 [-> [H1 H2]]]].
    apply lang_Class_inv in H1 as [c [-> Hc]].
    rewrite append_cons, append_nil_l. cbn [name_automaton].
    rewrite Hc. now apply name_tail_complete.
  - destruct s as [ | c s]; [discriminate | ].
    cbn [name_automaton]. rewrite andb_true_iff. intros [Hc Ht].
    change (String c s) with (String c "" ++ s).
    constructor; [now constructor | now apply name_tail_sound].
Qed.

(** The automaton in the words of the schema: bytes of the class or
    hyphens, the last one of the class. *)
Lemma name_tail_shape (b : bool) (s : string) :
  name_tail b s =
  all_chars (fun c => lower_alnum c || is_hyphen c) s &&
  match s with EmptyString => b | String _ _ => last_char lower_alnum s end.
Proof.
  revert b. induction s as [ | c s IH]; intros b; [reflexivity | ].
  cbn [name_tail all_chars last_char].
  rewrite (IH true), (IH false).
  destruct s as [ | c' s];
    destruct (lower_alnum c), (is_hyphen c); cbn [andb orb all_chars];
    try reflexivity; now rewrite ?andb_true_r, ?andb_false_r.
Qed.

Lemma name_automaton_shape (s : string) :
  name_automaton s = flow_definition_name_shape s.
Proof.
  unfold flow_definition_name_shape. destruct s as [ | c s]; [reflexivity | ].
  cbn [name_automaton first_char all_chars last_char].
  rewrite name_tail_shape.
  destruct s as [ | c' s];
    destruct (lower_alnum c), (is_hyphen c); cbn [andb orb all_chars];
    try reflexivity;
    now rewrite ?andb_true_r, ?andb_false_r;
    try (destruct (last_char lower_alnum (String c' s));
         now rewrite ?andb_true_r, ?andb_false_r).
Qed.

Lemma accepts_All2_string (f g : SchemaValidateFunc) (s : string) :
  accepts (All [f; g]) (VString s) =
  accepts f (VString s) && accepts g (VString s).
Proof.
  unfold accepts, All. cbn [List.map List.concat].
  destruct (f (VString s)); [ | reflexivity].
  rewrite List.app_nil_r. reflexivity.
Qed.

Lemma accepts_StringLenBetween (min max : nat) (s : string) :
  accepts (StringLenBetween min max) (VString s) = true <->
  (min <= String.length s <= max)%nat.
Proof.
  unfold accepts, StringLenBetween.
  destruct (String.length s <? min)%nat eqn:E1;
    destruct (max <? String.length s)%nat eqn:E2; cbn [orb];
    rewrite ?Nat.ltb_lt, ?Nat.ltb_ge in *;
    (split; [try discriminate; intros _ | intros H; try reflexivity]); lia.
Qed.

Lemma accepts_StringMatch (r : regexp) (message s : string) :
  accepts (StringMatch r message) (VString s) = MatchString r s.
Proof.
  unfold accepts, StringMatch. now destruct (MatchString r s).
Qed.

(** C5. The validator of [flow_definition_name] accepts a string exactly
    when its length is between 1 and 63 and it matches the pattern; and the
    pattern matches exactly the strings of lowercase alphanumerics and
    hyphens that start and end with an alphanumeric. *)
Theorem flow_definition_name_validation (s : string) :
  (accepts flow_definition_name_ValidateFunc (VString s) = true <->
   (1 <= String.length s <= 63)%nat /\
   MatchString flow_definition_name_regexp s = true) /\
  MatchString flow_definition_name_regexp s = flow_definition_name_shape s.
Proof.
  split.
  - unfold flow_definition_name_ValidateFunc.
    rewrite accepts_All2_string, andb_true_iff, accepts_StringLenBetween,
      accepts_StringMatch. reflexivity.
  - rewrite MatchString_name_automaton. apply name_automaton_shape.
Qed.

(** ** The output path pattern *)

Lemma lang_Lit (w s : string) : lang (Lit w) s <-> s = w.
Proof.
  revert s. induction w as [ | c w IH]; intros s; cbn [Lit].
  - split; [apply lang_Eps_inv | intros ->; constructor].
  - split.
    + intros H. apply lang_Cat_inv in H as [s1 [s2 [-> [H1 H2]]]].
      apply lang_Class_inv in H1 as [c' [-> Hc]].
      apply Ascii.eqb_eq in Hc as <-. apply IH in H2 as ->. reflexivity.
    + intros ->. change (String c w) with (String c "" ++ w).
      constructor; [ | now apply IH].
      constructor. apply Ascii.eqb_refl.
Qed.

Lemma lang_Star_Class (p : ascii -> bool) (s : string) :
  lang (Star (Class p)) s <-> all_chars p s = true.
Proof.
  split.
  - intros H. remember (Star (Class p)) as r eqn:Er.
    induction H as [ | | | | | | r0 s1 s2 H1 _ H2 IH2]; try discriminate Er.
    + reflexivity.
    + injection Er as Er. subst r0.
      apply lang_Class_inv in H1 as [c [-> Hc]].
      rewrite append_cons, append_nil_l. cbn [all_chars].
      rewrite Hc. now apply IH2.
  - induction s as [ | c s IH]; [intros _; constructor | ].
    cbn [all_chars]. rewrite andb_true_iff. intros [Hc Hs].
    change (String c s) with (String c "" ++ s).
    constructor; [now constructor | now apply IH].
Qed.

(** An optional slash followed by anything without a line feed is anything
    without a line feed. *)
Lemma lang_path_tail (s : string) :
  lang (Cat (Opt (Chr "/")) (Star (Class dot))) s <-> all_chars dot s = true.
Proof.
  split.
  - intros H. apply lang_Cat_inv in H as [s1 [s2 [-> [H1 H2]]]].
    apply lang_Star_Class in H2.
    apply lang_Alt_inv in H1 as [H1 | H1].
    + apply lang_Class_inv in H1 as [c [-> Hc]].
      apply Ascii.eqb_eq in Hc as <-.
      rewrite append_cons, append_nil_l. cbn [all_chars]. now rewrite H2.
    + apply lang_Eps_inv in H1 as ->. now rewrite append_nil_l.
  - intros H. rewrite <- (append_nil_l s).
    constructor; [apply lang_Alt_r; constructor | now apply lang_Star_Class].
Qed.

Lemma strip_prefix_app (p s rest : string) :
  strip_prefix p s = Some rest <-> s = p ++ rest.
Proof.
  revert s. induction p as [ | a p IH]; intros s; cbn [strip_prefix].
  - rewrite append_nil_l. split; [now intros [= ->] | now intros ->].
  - rewrite append_cons. destruct s as [ | b s]; [split; discriminate | ].
    destruct (Ascii.eqb_spec a b) as [<- | Hne].
    + rewrite IH. split; [now intros -> | now intros [= ->]].
    + split; [discriminate | intros [= E _]; congruence].
Qed.

Lemma after_scheme_app (s rest : string) :
  after_scheme s = Some rest <->
  s = "https://" ++ rest \/ s = "s3://" ++ rest.
Proof.
  unfold after_scheme.
  destruct (strip_prefix "https://" s) as [t | ] eqn:E.
  - apply strip_prefix_app in E. split.
    + intros [= <-]. now left.
    + intros [H | H]; subst s.
      * rewrite !append_cons, append_nil_l in H. now injection H as ->.
      * rewrite !append_cons in H. discriminate H.
  - rewrite strip_prefix_app. split; [now right | ].
    intros [H | H]; [ | assumption].
    apply strip_prefix_app in H. congruence.
Qed.

Lemma lang_s3_output_path (s : string) :
  lang s3_output_path_regexp s <->
  exists c rest,
    (s = "https://" ++ String c rest \/ s = "s3://" ++ String c rest) /\
    not_slash c = true /\ all_chars dot rest = true.
Proof.
  unfold s3_output_path_regexp. split.
  - intros H.
    apply lang_Cat_inv in H as [scheme [s1 [-> [Hscheme H]]]].
    apply lang_Cat_inv in H as [sep [s2 [-> [Hsep H]]]].
    apply lang_Cat_inv in H as [host [s3 [-> [Hhost H]]]].
    apply lang_Lit in Hsep as ->.
    apply lang_Class_inv in Hhost as [c [-> Hc]].
    apply lang_path_tail in H.
    exists c, s3. split; [ | now split].
    apply lang_Alt_inv in Hscheme as [Hs | Hs]; apply lang_Lit in Hs as ->;
      [left | right]; reflexivity.
  - intros [c [rest [Hs [Hc Hrest]]]].
    assert (Htail : lang (Cat (Lit "://")
                           (Cat (Class not_slash)
                              (Cat (Opt (Chr "/")) (Star (Class dot)))))
                         ("://" ++ String c rest)).
    { constructor; [now apply lang_Lit | ].
      change (String c rest) with (String c "" ++ rest).
      constructor; [now constructor | now apply lang_path_tail]. }
    destruct Hs as [-> | ->].
    + change ("https://" ++ String c rest)
        with ("https" ++ ("://" ++ String c rest)).
      constructor; [apply lang_Alt_l; now apply lang_Lit | exact Htail].
    + change ("s3://" ++ String c rest)
        with ("s3" ++ ("://" ++ String c rest)).
      constructor; [apply lang_Alt_r; now apply lang_Lit | exact Htail].
Qed.

Lemma MatchString_s3_output_path (s : string) :
  MatchString s3_output_path_regexp s = s3_output_path_shape s.
Proof.
  apply eq_true_iff_eq. rewrite MatchString_lang, lang_s3_output_path.
  unfold s3_output_path_shape. split.
  - intros [c [rest [Hs [Hc Hrest]]]].
    apply after_scheme_app in Hs. rewrite Hs, Hc, Hrest. reflexivity.
  - destruct (after_scheme s) as [[ | c rest] | ] eqn:E; try discriminate.
    rewrite andb_true_iff. intros [Hc Hrest].
    apply after_scheme_app in E. now exists c, rest.
Qed.

(** C6. The validator of [s3_output_path] accepts a string exactly when its
    length is between 1 and 512 and it matches the pattern; the pattern
    matches exactly a scheme, "://", one byte that is not a slash and then
    no line feed; so every accepted string starts with "https://" or
    "s3://" followed by a byte that is not a slash. *)
Theorem s3_output_path_validation (s : string) :
  (accepts s3_output_path_ValidateFunc (VString s) = true <->
   (1 <= String.length s <= 512)%nat /\
   MatchString s3_output_path_regexp s = true) /\
  MatchString s3_output_path_regexp s = s3_output_path_shape s /\
  (accepts s3_output_path_ValidateFunc (VString s) = true ->
   exists c rest,
     (s = "https://" ++ String c rest \/ s = "s3://" ++ String c rest) /\
     c <> "/"%char).
Proof.
  assert (Hiff : accepts s3_output_path_ValidateFunc (VString s) = true <->
                 (1 <= String.length s <= 512)%nat /\
                 MatchString s3_output_path_regexp s = true).
  { unfold s3_output_path_ValidateFunc.
    rewrite accepts_All2_string, andb_true_iff, accepts_StringLenBetween,
      accepts_StringMatch. tauto. }
  split; [exact Hiff | split; [apply MatchString_s3_output_path | ]].
  intros H. apply Hiff in H as [_ H].
  apply MatchString_lang, lang_s3_output_path in H
    as [c [rest [Hs [Hc _]]]].
  exists c, rest. split; [assumption | ].
  intros ->. discriminate Hc.
Qed.

(** ** The validators on sample values *)

Example flow_definition_name_ok :
  accepts flow_definition_name_ValidateFunc (VString "my-flow--7") = true.
Proof. reflexivity. Qed.

Example flow_definition_name_trailing_hyphen :
  accepts flow_definition_name_ValidateFunc (VString "my-flow-") = false.
Proof. reflexivity. Qed.

Example flow_definition_name_not_a_string :
  accepts flow_definition_name_ValidateFunc (VInt 7) = false.
Proof. reflexivity. Qed.

Example s3_output_path_ok :
  accepts s3_output_path_ValidateFunc (VString "s3://bucket/key") = true.
Proof. reflexivity. Qed.

Example s3_output_path_no_bucket :
  accepts s3_output_path_ValidateFunc (VString "s3:///key") = false.
Proof. reflexivity. Qed.

(** ** Further properties of the expand and flatten functions *)

(** X1. Flattening the expansion of a one-element
    [human_loop_request_source] list whose block holds the source as a
    string gives the list back. *)
Theorem request_source_round_trip (source : string) :
  let l := Slice [VMap (request_source_block source)] in
  flatten_after_expand expandSagemakerFlowDefinitionHumanLoopRequestSource
    flattenSagemakerFlowDefinitionHumanLoopRequestSource l = Ok l.
Proof.
  intros l. unfold l, request_source_block, flatten_after_expand,
    expandSagemakerFlowDefinitionHumanLoopRequestSource.
  cbn [empty_or_nil len slice_elems length Nat.eqb first is_nil orb
       assert_map rbind].
  rewrite index_singleton_eq. reflexivity.
Qed.

(** X2. In the other direction, expanding what was flattened from an output
    config gives the config back when its path is set and its key is not
    the empty string. *)
Theorem output_config_expand_after_flatten (c : FlowDefinitionOutputConfig) :
  S3OutputPath c <> None ->
  KmsKeyId c <> Some "" ->
  expandSagemakerFlowDefinitionOutputConfig
    (as_interfaces (flattenSagemakerFlowDefinitionOutputConfig (Some c)))
  = Ok (Some c).
Proof.
  intros Hpath Hkey. destruct c as [key [path | ]]; [ | contradiction].
  unfold expandSagemakerFlowDefinitionOutputConfig,
    flattenSagemakerFlowDefinitionOutputConfig.
  cbn [as_interfaces slice_map List.map empty_or_nil len slice_elems length
       Nat.eqb first is_nil orb assert_map rbind KmsKeyId S3OutputPath].
  index_of_block. cbn [assert_string string_ok rbind].
  destruct key as [key | ]; unfold StringValue; cbn [default id].
  - destruct (String.eqb_spec key "") as [-> | Hne]; [contradiction | ].
    reflexivity.
  - reflexivity.
Qed.

Lemma output_config_expand_after_flatten_witness :
  expandSagemakerFlowDefinitionOutputConfig
    (as_interfaces (flattenSagemakerFlowDefinitionOutputConfig
       (Some {| KmsKeyId := None; S3OutputPath := Some "s3://bucket/out" |})))
  = Ok (Some {| KmsKeyId := None; S3OutputPath := Some "s3://bucket/out" |}).
Proof.
  apply (output_config_expand_after_flatten
           {| KmsKeyId := None; S3OutputPath := Some "s3://bucket/out" |});
    simpl; discriminate.
Defined.

(** X3. What the same composition loses: a path that is not set comes back
    as the empty string, and a key that is the empty string comes back as
    not set. *)
Theorem output_config_expand_after_flatten_lossy
    (c : FlowDefinitionOutputConfig) :
  expandSagemakerFlowDefinitionOutputConfig
    (as_interfaces (flattenSagemakerFlowDefinitionOutputConfig (Some c)))
  = Ok (Some {| KmsKeyId :=
                  match KmsKeyId c with
                  | Some EmptyString => None
                  | key => key
                  end;
                S3OutputPath := Some (StringValue (S3OutputPath c)) |}).
Proof.
  destruct c as [key path].
  unfold expandSagemakerFlowDefinitionOutputConfig,
    flattenSagemakerFlowDefinitionOutputConfig.
  cbn [as_interfaces slice_map List.map empty_or_nil len slice_elems length
       Nat.eqb first is_nil orb assert_map rbind KmsKeyId S3OutputPath].
  index_of_block. cbn [assert_string string_ok rbind].
  destruct key as [[ | a key] | ]; reflexivity.
Qed.

Lemma agree_on_index (keys : list string) (m m' : gmap string value)
    (k : string) :
  agree_on keys m m' -> In k keys -> index m k = index m' k.
Proof.
  intros H Hk. unfold agree_on in H. rewrite List.Forall_forall in H.
  unfold index. now rewrite (H k Hk).
Qed.

Ltac same_index H :=
  repeat match goal with
  | |- context [index ?m ?k] =>
      lazymatch type of H with
      | agree_on _ m _ => rewrite (agree_on_index _ _ _ k H) by (simpl; tauto)
      end
  end.

(** X4. Every expand function reads the first element of its list and, in
    it, the attributes of its schema only: two lists whose first blocks
    agree on those attributes expand alike, whatever else the blocks hold
    and whatever follows them. *)
Theorem expand_reads_schema_attributes
    (DecodeJSONValue : string -> JSONValue * option error)
    (m m' : gmap string value) (rest rest' : list value) :
  (agree_on ["human_loop_activation_conditions_config"] m m' ->
   expandSagemakerFlowDefinitionHumanLoopActivationConfig DecodeJSONValue
     (Slice (VMap m :: rest))
   = expandSagemakerFlowDefinitionHumanLoopActivationConfig DecodeJSONValue
       (Slice (VMap m' :: rest'))) /\
  (agree_on ["human_loop_activation_conditions"] m m' ->
   expandSagemakerFlowDefinitionHumanLoopActivationConditionsConfig
     DecodeJSONValue (Slice (VMap m :: rest))
   = expandSagemakerFlowDefinitionHumanLoopActivationConditionsConfig
       DecodeJSONValue (Slice (VMap m' :: rest'))) /\
  (agree_on ["s3_output_path"; "kms_key_id"] m m' ->
   expandSagemakerFlowDefinitionOutputConfig (Slice (VMap m :: rest))
   = expandSagemakerFlowDefinitionOutputConfig (Slice (VMap m' :: rest'))) /\
  (agree_on ["aws_managed_human_loop_request_source"] m m' ->
   expandSagemakerFlowDefinitionHumanLoopRequestSource (Slice (VMap m :: rest))
   = expandSagemakerFlowDefinitionHumanLoopRequestSource
       (Slice (VMap m' :: rest'))) /\
  (agree_on ["human_task_ui_arn"; "task_count"; "task_description";
             "task_title"; "workteam_arn"; "task_keywords";
             "task_availability_lifetime_in_seconds";
             "task_time_limit_in_seconds"] m m' ->
   expandSagemakerFlowDefinitionHumanLoopConfig (Slice (VMap m :: rest))
   = expandSagemakerFlowDefinitionHumanLoopConfig (Slice (VMap m' :: rest'))).
Proof.
  repeat split; intros H.
  - unfold expandSagemakerFlowDefinitionHumanLoopActivationConfig.
    cbn [empty_or_nil len slice_elems length Nat.eqb first is_nil orb
         assert_map rbind].
    same_index H. reflexivity.
  - unfold expandSagemakerFlowDefinitionHumanLoopActivationConditionsConfig.
    cbn [empty_or_nil len slice_elems length Nat.eqb first is_nil orb
         assert_map rbind].
    same_index H. reflexivity.
  - unfold expandSagemakerFlowDefinitionOutputConfig.
    cbn [empty_or_nil len slice_elems length Nat.eqb first is_nil orb
         assert_map rbind].
    same_index H. reflexivity.
  - unfold expandSagemakerFlowDefinitionHumanLoopRequestSource.
    cbn [empty_or_nil len slice_elems length Nat.eqb first is_nil orb
         assert_map rbind].
    same_index H. reflexivity.
  - unfold expandSagemakerFlowDefinitionHumanLoopConfig,
      with_TaskTimeLimitInSeconds, with_TaskAvailabilityLifetimeInSeconds,
      with_TaskKeywords.
    cbn [empty_or_nil len slice_elems length Nat.eqb first is_nil orb
         assert_map rbind].
    same_index H. reflexivity.
Qed.

(** X5. Past the guard, the expand function of [human_loop_config] panics
    exactly when one of the five required attributes is missing or held in
    another type than the one it asserts; otherwise it returns a config.
    The three optional attributes never make it panic. *)
Theorem human_loop_config_expand_panics_on_required
    (m : gmap string value) (rest : list value) :
  match expandSagemakerFlowDefinitionHumanLoopConfig (Slice (VMap m :: rest)) with
  | Ok (Some c) =>
      human_loop_config_required m = true /\
      string_ok (index m "human_task_ui_arn") = HumanTaskUiArn c /\
      int_ok (index m "task_count") = TaskCount c /\
      string_ok (index m "task_description") = TaskDescription c /\
      string_ok (index m "task_title") = TaskTitle c /\
      string_ok (index m "workteam_arn") = WorkteamArn c
  | Ok None => False
  | Panic => human_loop_config_required m = false
  end.
Proof.
  unfold expandSagemakerFlowDefinitionHumanLoopConfig,
    human_loop_config_required,
    with_TaskTimeLimitInSeconds, with_TaskAvailabilityLifetimeInSeconds,
    with_TaskKeywords.
  cbn [empty_or_nil len slice_elems length Nat.eqb first is_nil orb
       assert_map rbind].
  destruct (index m "human_task_ui_arn"); try reflexivity;
  destruct (index m "task_count"); try reflexivity;
  destruct (index m "task_description"); try reflexivity;
  destruct (index m "task_title"); try reflexivity;
  destruct (index m "workteam_arn"); try reflexivity.
  cbn [assert_string assert_int rbind string_ok int_ok holds andb].
  destruct (set_ok (index m "task_keywords")) as [kw | ];
    [destruct (0 <? size kw)%nat | ];
    destruct (int_ok (index m "task_availability_lifetime_in_seconds"));
    destruct (int_ok (index m "task_time_limit_in_seconds"));
    repeat split.
Qed.

(** X6. The optional attributes of [human_loop_config] that are not set stay
    unset, and an empty [task_keywords] set is dropped: a block with the
    required attributes only, with or without an empty set of keywords,
    comes back from expansion and flattening as the five required
    attributes, the count held as [int64]. *)
Theorem human_loop_config_optional_stay_unset
    (human_task_ui_arn task_description task_title workteam_arn : string)
    (task_count : Z) (task_keywords : option (gset string)) :
  task_keywords = None \/ task_keywords = Some ∅ ->
  flatten_after_expand expandSagemakerFlowDefinitionHumanLoopConfig
    flattenSagemakerFlowDefinitionHumanLoopConfig
    (Slice [VMap (human_loop_config_required_block VInt human_task_ui_arn
                    task_description task_title workteam_arn task_count
                    task_keywords)])
  = Ok (Slice [VMap (human_loop_config_required_block VInt64
                       human_task_ui_arn task_description task_title
                       workteam_arn task_count None)]).
Proof.
  intros [-> | ->];
    unfold flatten_after_expand, expandSagemakerFlowDefinitionHumanLoopConfig,
      human_loop_config_required_block;
    cbn [empty_or_nil len slice_elems length Nat.eqb first is_nil orb
         assert_map rbind];
    index_of_block; cbn [assert_string assert_int rbind];
    unfold with_TaskTimeLimitInSeconds, with_TaskAvailabilityLifetimeInSeconds,
      with_TaskKeywords;
    index_of_block; reflexivity.
Qed.

Lemma human_loop_config_optional_stay_unset_witness :
  flatten_after_expand expandSagemakerFlowDefinitionHumanLoopConfig
    flattenSagemakerFlowDefinitionHumanLoopConfig
    (Slice [VMap (human_loop_config_required_block VInt "arn:aws:sagemaker:ui"
                    "Review the image" "Review" "arn:aws:sagemaker:team" 2
                    (Some ∅))])
  = Ok (Slice [VMap (human_loop_config_required_block VInt64
                       "arn:aws:sagemaker:ui" "Review the image" "Review"
                       "arn:aws:sagemaker:team" 2 None)]).
Proof.
  apply (human_loop_config_optional_stay_unset "arn:aws:sagemaker:ui"
           "Review the image" "Review" "arn:aws:sagemaker:team" 2 (Some ∅)).
  right. reflexivity.
Defined.

Section CodecRoundTrip.

Variable DecodeJSONValue : string -> JSONValue * option error.
Variable EncodeJSONValue : JSONValue -> string * option error.

(** X8. The activation conditions come back from expansion and flattening
    as what the encoder makes of what the decoder made of them, errors of
    either dropped: the list is given back exactly when encoding the
    decoded value gives the string back. *)
Theorem activation_conditions_round_trip_iff_codec (conditions : string) :
  let l :=
    Slice [VMap {[ "human_loop_activation_conditions" := VString conditions ]}] in
  flatten_after_expand
    (expandSagemakerFlowDefinitionHumanLoopActivationConditionsConfig
       DecodeJSONValue)
    (flattenSagemakerFlowDefinitionHumanLoopActivationConditionsConfig
       EncodeJSONValue) l
  = Ok (Slice [VMap {[ "human_loop_activation_conditions" :=
                       VString (fst (EncodeJSONValue
                                       (fst (DecodeJSONValue conditions)))) ]}]) /\
  (flatten_after_expand
     (expandSagemakerFlowDefinitionHumanLoopActivationConditionsConfig
        DecodeJSONValue)
     (flattenSagemakerFlowDefinitionHumanLoopActivationConditionsConfig
        EncodeJSONValue) l
   = Ok l <->
   fst (EncodeJSONValue (fst (DecodeJSONValue conditions))) = conditions).
Proof.
  intros l.
  assert (H : flatten_after_expand
    (expandSagemakerFlowDefinitionHumanLoopActivationConditionsConfig
       DecodeJSONValue)
    (flattenSagemakerFlowDefinitionHumanLoopActivationConditionsConfig
       EncodeJSONValue) l
    = Ok (Slice [VMap {[ "human_loop_activation_conditions" :=
                         VString (fst (EncodeJSONValue
                                         (fst (DecodeJSONValue conditions)))) ]}])).
  { unfold l, flatten_after_expand,
      expandSagemakerFlowDefinitionHumanLoopActivationConditionsConfig,
      flattenSagemakerFlowDefinitionHumanLoopActivationConditionsConfig.
    cbn [empty_or_nil len slice_elems length Nat.eqb first is_nil orb
         assert_map rbind].
    rewrite index_singleton_eq. cbn [assert_string rbind].
    destruct (DecodeJSONValue conditions) as [v e]. cbn [rbind fst].
    cbn [HumanLoopActivationConditions].
    destruct (EncodeJSONValue v) as [s e']. reflexivity. }
  split; [exact H | ].
  rewrite H. unfold l. split.
  - intros E.
    assert (E' : ({[ "human_loop_activation_conditions" :=
                     VString (fst (EncodeJSONValue
                                     (fst (DecodeJSONValue conditions)))) ]}
                  : gmap string value) !! "human_loop_activation_conditions"
               = ({[ "human_loop_activation_conditions" := VString conditions ]}
                  : gmap string value) !! "human_loop_activation_conditions")
      by congruence.
    rewrite !lookup_singleton_eq in E'. congruence.
  - intros ->. reflexivity.
Qed.

End CodecRoundTrip.

(** ** Expanding what was flattened, and required attributes *)

(** X7. Two of the flatten functions write values the matching expand
    function does not take: the counts of [human_loop_config] are written
    as [int64] and asserted as [int], and the nested list of
    [human_loop_activation_config] is written as a list of maps and
    asserted as a list of interfaces. Expanding their output panics. *)
Theorem expand_of_flattened_panics
    (DecodeJSONValue : string -> JSONValue * option error)
    (EncodeJSONValue : JSONValue -> string * option error)
    (hlc : HumanLoopConfig) (hlac : HumanLoopActivationConfig) :
  expandSagemakerFlowDefinitionHumanLoopConfig
    (as_interfaces (flattenSagemakerFlowDefinitionHumanLoopConfig (Some hlc)))
  = Panic /\
  expandSagemakerFlowDefinitionHumanLoopActivationConfig DecodeJSONValue
    (as_interfaces
       (flattenSagemakerFlowDefinitionHumanLoopActivationConfig
          EncodeJSONValue (Some hlac)))
  = Panic.
Proof.
  split; [apply expand_flattened_human_loop_config_panics | ].
  unfold expandSagemakerFlowDefinitionHumanLoopActivationConfig,
    flattenSagemakerFlowDefinitionHumanLoopActivationConfig.
  cbn [as_interfaces slice_map List.map empty_or_nil len slice_elems length
       Nat.eqb first is_nil orb assert_map rbind].
  rewrite index_singleton_eq. reflexivity.
Qed.

(** X20. Past the guard, the expand functions of [output_config] and of
    [human_loop_request_source] panic exactly when the one required
    attribute is missing or not a string, and otherwise return a config
    that holds it; [kms_key_id], whatever it is, never makes the first one
    panic, and it is kept only when it is a string that is not empty. *)
Theorem expand_panics_on_required_string
    (m : gmap string value) (rest : list value) :
  match expandSagemakerFlowDefinitionOutputConfig (Slice (VMap m :: rest)) with
  | Ok (Some c) =>
      string_ok (index m "s3_output_path") = S3OutputPath c /\
      S3OutputPath c <> None /\
      KmsKeyId c <> Some "" /\
      (forall key, KmsKeyId c = Some key ->
         index m "kms_key_id" = VString key) /\
      (forall key, index m "kms_key_id" = VString key -> key <> "" ->
         KmsKeyId c = Some key)
  | Ok None => False
  | Panic => string_ok (index m "s3_output_path") = None
  end /\
  match expandSagemakerFlowDefinitionHumanLoopRequestSource
          (Slice (VMap m :: rest)) with
  | Ok (Some c) =>
      string_ok (index m "aws_managed_human_loop_request_source")
      = AwsManagedHumanLoopRequestSource c /\
      AwsManagedHumanLoopRequestSource c <> None
  | Ok None => False
  | Panic =>
      string_ok (index m "aws_managed_human_loop_request_source") = None
  end.
Proof.
  split.
  - unfold expandSagemakerFlowDefinitionOutputConfig.
    cbn [empty_or_nil len slice_elems length Nat.eqb first is_nil orb
         assert_map rbind].
    destruct (index m "s3_output_path"); try reflexivity.
    cbn [assert_string rbind string_ok].
    destruct (index m "kms_key_id") as [ | key | | | | | | ];
      cbn [string_ok S3OutputPath KmsKeyId];
      try (repeat split; try discriminate; intros; discriminate).
    destruct (String.eqb_spec key "") as [-> | Hne];
      cbn [negb S3OutputPath KmsKeyId].
    + repeat split; try discriminate. intros key [= <-] H. contradiction.
    + repeat split; try discriminate.
      * intros [= E]. contradiction.
      * now intros key' [= ->].
      * now intros key' [= ->] _.
  - unfold expandSagemakerFlowDefinitionHumanLoopRequestSource.
    cbn [empty_or_nil len slice_elems length Nat.eqb first is_nil orb
         assert_map rbind].
    destruct (index m "aws_managed_human_loop_request_source");
      try reflexivity.
    cbn. split; [reflexivity | discriminate].
Qed.

(** ** Further properties of the CRUD functions *)

Section CrudMore.

Variables World KeyValueTags DefaultConfig IgnoreConfig : Type.
Variable meta : AWSClient World KeyValueTags DefaultConfig IgnoreConfig.
Variable DecodeJSONValue : string -> JSONValue * option error.
Variable EncodeJSONValue : JSONValue -> string * option error.

Let conn := sagemakerconn _ _ _ _ meta.
Let Read := resourceAwsSagemakerFlowDefinitionRead _ _ _ _ meta EncodeJSONValue.
Let Create :=
  resourceAwsSagemakerFlowDefinitionCreate _ _ _ _ meta
    DecodeJSONValue EncodeJSONValue.
Let set_error := SetError _ _ _ (helpers _ _ _ _ meta).
Let after (st : Exec World) (c : call) (w : World) : Exec World :=
  {| data := data _ st; remote := w; calls := calls _ st ++ [c] |}.

Lemma same_identity_refl (d : ResourceData) : same_identity d d.
Proof. now repeat split. Qed.

Lemma same_identity_trans (d1 d2 d3 : ResourceData) :
  same_identity d1 d2 -> same_identity d2 d3 -> same_identity d1 d3.
Proof.
  unfold same_identity. intros [? [? [? ?]]] [? [? [? ?]]].
  repeat split; congruence.
Qed.

Lemma Set_same_identity (d : ResourceData) (key : string) (v : value) :
  same_identity d (fst (Set_ _ _ _ _ meta d key v)).
Proof.
  unfold Set_. destruct (SetError _ _ _ _ key v); now repeat split.
Qed.

Lemma set_unchecked_same_identity (key : string) (v : value)
    (d : ResourceData) :
  same_identity d (fst (set_unchecked _ _ _ _ meta key v d)).
Proof. unfold set_unchecked. cbn [fst]. apply Set_same_identity. Qed.

Lemma set_checked_same_identity (key : string) (v : value) (text : string)
    (d : ResourceData) :
  same_identity d (fst (set_checked _ _ _ _ meta key v text d)).
Proof.
  unfold set_checked.
  pose proof (Set_same_identity d key v) as H.
  destruct (Set_ _ _ _ _ meta d key v) as [d' [e | ]]; exact H.
Qed.

Lemma seq_same_identity (s1 s2 : stmt) :
  (forall d, same_identity d (fst (s1 d))) ->
  (forall d, same_identity d (fst (s2 d))) ->
  forall d, same_identity d (fst (seq s1 s2 d)).
Proof.
  intros H1 H2 d. unfold seq. pose proof (H1 d) as H.
  destruct (s1 d) as [d' [e | ]]; [exact H | ].
  eapply same_identity_trans; [exact H | apply H2].
Qed.

Lemma read_set_definition_same_identity
    (fd : DescribeFlowDefinitionOutput.t) (d : ResourceData) :
  same_identity d
    (fst (read_set_definition _ _ _ _ meta EncodeJSONValue fd d)).
Proof.
  unfold read_set_definition.
  repeat (apply seq_same_identity;
          [intros ?; first [apply set_unchecked_same_identity
                           | apply set_checked_same_identity] | ]).
  intros ?. apply set_checked_same_identity.
Qed.

Lemma read_set_tags_same_identity (tags : KeyValueTags) (d : ResourceData) :
  same_identity d (fst (read_set_tags _ _ _ _ meta tags d)).
Proof.
  unfold read_set_tags.
  apply seq_same_identity; intros ?; apply set_checked_same_identity.
Qed.

(** What Read does to the resource data: it keeps the ID, the mark, the
    prior state and the diff, or it is the drift case and empties the ID. *)
Lemma Read_data (st st' : Exec World) (r : option error) :
  Read st = Ok (r, st') ->
  same_identity (data _ st) (data _ st') \/
  (IsNewResource (data _ st) = false /\
   NotFound (snd (fst (FlowDefinitionByName _ _ conn (Id (data _ st))
                         (remote _ st)))) = true /\
   data _ st' = SetId "" (data _ st) /\
   r = None).
Proof.
  subst Read conn.
  unfold resourceAwsSagemakerFlowDefinitionRead, issue.
  destruct (FlowDefinitionByName _ _ _ (Id (data _ st)) (remote _ st))
    as [[fd err] w].
  cbv zeta. cbn [data remote calls fst snd].
  destruct (IsNewResource (data _ st)) eqn:Enew;
    destruct (NotFound err) eqn:Enf; cbn [negb andb].
  3: { intros [= <- <-]. right. now repeat split. }
  all: destruct err as [e | ];
    [ intros [= <- <-]; left; apply same_identity_refl | ].
  all: destruct fd as [fd | ]; [ | discriminate].
  all: pose proof (read_set_definition_same_identity fd (data _ st)) as Hd.
  all: destruct (read_set_definition _ _ _ _ _ _ fd (data _ st))
         as [d [e | ]]; cbn [fst] in Hd;
    [ intros [= <- <-]; left; exact Hd | ].
  all: cbn [remote calls data with_data].
  all: destruct (SagemakerListTags _ _ _ _ w) as [[tags err] w'].
  all: cbn [remote calls data with_data].
  all: destruct err as [e | ]; [ intros [= <- <-]; left; exact Hd | ].
  all: pose proof (read_set_tags_same_identity tags d) as Ht.
  all: destruct (read_set_tags _ _ _ _ _ tags d) as [d' err]; cbn [fst] in Ht.
  all: intros [= <- <-]; left; cbn [data with_data].
  all: exact (same_identity_trans _ _ _ Hd Ht).
Qed.

(** X9. Read never touches the new-resource mark, the prior state or the
    diff, and it changes the ID in one case only: the resource is not new
    and the lookup reported not-found; then the ID is emptied, the
    attributes are as they were and Read returns nil. *)
Theorem read_keeps_identity (st st' : Exec World) (r : option error) :
  Read st = Ok (r, st') ->
  IsNewResource (data _ st') = IsNewResource (data _ st) /\
  prior (data _ st') = prior (data _ st) /\
  changed (data _ st') = changed (data _ st) /\
  (Id (data _ st') = Id (data _ st) \/
   (IsNewResource (data _ st) = false /\
    NotFound (snd (fst (FlowDefinitionByName _ _ conn (Id (data _ st))
                          (remote _ st)))) = true /\
    Id (data _ st') = "" /\
    attrs (data _ st') = attrs (data _ st) /\
    r = None)).
Proof.
  intros H. apply Read_data in H as [[HId [Hnew [Hprior Hch]]] | H].
  - repeat split; try assumption. now left.
  - destruct H as [Hnew [Hnf [-> ->]]].
    cbn [SetId Id IsNewResource prior changed attrs].
    repeat split. right. now repeat split.
Qed.

(** X10. For a new resource Read reports every lookup error, not-found
    included: it returns the error wrapped with the ID and leaves the
    resource data, the ID with it, as they were. *)
Theorem read_new_resource_reports_not_found (st : Exec World) :
  IsNewResource (data _ st) = true ->
  let id := Id (data _ st) in
  let '((flowDefinition, err), w) :=
    FlowDefinitionByName _ _ conn id (remote _ st) in
  forall e, err = Some e ->
    Read st =
    Ok (Some (Errorf ("error reading SageMaker Flow Definition (" ++ id ++ ")") e),
        after st (FlowDefinitionByNameCall id) w).
Proof.
  intros Hnew id. subst Read conn after.
  unfold resourceAwsSagemakerFlowDefinitionRead, issue. fold id.
  destruct (FlowDefinitionByName _ _ _ id (remote _ st)) as [[fd err] w].
  cbv zeta. cbn [data]. rewrite Hnew. cbn [negb andb].
  intros e ->. reflexivity.
Qed.

(** X11. Read panics exactly when the lookup returns neither a definition
    nor an error. *)
Theorem read_panics_iff_lookup_empty (st : Exec World) :
  Read st = Panic <->
  fst (FlowDefinitionByName _ _ conn (Id (data _ st)) (remote _ st))
  = (None, None).
Proof.
  subst Read conn.
  unfold resourceAwsSagemakerFlowDefinitionRead, issue.
  destruct (FlowDefinitionByName _ _ _ (Id (data _ st)) (remote _ st))
    as [[fd err] w].
  cbv zeta. cbn [data remote calls fst].
  destruct err as [e | ].
  - destruct (negb (IsNewResource (data _ st)) && NotFound (Some e));
      split; discriminate.
  - cbn [NotFound]. rewrite andb_false_r.
    destruct fd as [fd | ]; [ | split; reflexivity].
    split; [ | discriminate].
    destruct (read_set_definition _ _ _ _ _ _ fd (data _ st)) as [d [e | ]];
      [discriminate | ].
    cbn [remote calls data with_data].
    destruct (SagemakerListTags _ _ _ _ w) as [[tags [e | ]] w'];
      [discriminate | ].
    cbn [data]. destruct (read_set_tags _ _ _ _ _ tags d). discriminate.
Qed.

(** X12. The calls of Read: the lookup by the stored ID, alone or followed
    by one listing of the tags of the ARN the lookup returned; the tags are
    listed only after a lookup that returned a definition and no error. *)
Theorem read_call_sequence (st st' : Exec World) (r : option error) :
  Read st = Ok (r, st') ->
  let id := Id (data _ st) in
  let '((flowDefinition, err), w) :=
    FlowDefinitionByName _ _ conn id (remote _ st) in
  calls _ st' = (calls _ st ++ [FlowDefinitionByNameCall id])%list \/
  exists fd,
    flowDefinition = Some fd /\ err = None /\
    calls _ st' =
      (calls _ st ++
       [FlowDefinitionByNameCall id;
        ListTagsCall
          (StringValue (DescribeFlowDefinitionOutput.FlowDefinitionArn fd))])%list.
Proof.
  intros H id. subst Read conn.
  unfold resourceAwsSagemakerFlowDefinitionRead, issue in H. fold id in H.
  destruct (FlowDefinitionByName _ _ _ id (remote _ st)) as [[fd err] w].
  cbv zeta in H. cbn [data remote calls] in H.
  destruct (negb (IsNewResource (data _ st)) && NotFound err).
  { injection H as _ <-. now left. }
  destruct err as [e | ].
  { injection H as _ <-. now left. }
  destruct fd as [fd | ]; [ | discriminate H].
  destruct (read_set_definition _ _ _ _ _ _ fd (data _ st)) as [d [e | ]].
  { injection H as _ <-. now left. }
  cbn [remote calls data with_data] in H.
  destruct (SagemakerListTags _ _ _ _ w) as [[tags err] w'].
  cbn [remote calls data with_data] in H.
  right. exists fd. split; [reflexivity | split; [reflexivity | ]].
  destruct err as [e | ].
  { injection H as _ <-. cbn [calls]. now rewrite <- List.app_assoc. }
  destruct (read_set_tags _ _ _ _ _ tags d) as [d' err].
  injection H as _ <-. cbn [calls with_data]. now rewrite <- List.app_assoc.
Qed.

Lemma set_unchecked_ok (key : string) (v : value) (d : ResourceData) :
  snd (set_unchecked _ _ _ _ meta key v d) = None.
Proof. reflexivity. Qed.

Lemma set_checked_ok (key : string) (v : value) (text : string)
    (d : ResourceData) :
  set_error key v = None -> snd (set_checked _ _ _ _ meta key v text d) = None.
Proof.
  subst set_error. intros H. unfold set_checked, Set_. now rewrite H.
Qed.

Lemma seq_ok (s1 s2 : stmt) :
  (forall d, snd (s1 d) = None) -> (forall d, snd (s2 d) = None) ->
  forall d, snd (seq s1 s2 d) = None.
Proof.
  intros H1 H2 d. unfold seq. pose proof (H1 d) as H.
  destruct (s1 d) as [d' [e | ]]; [discriminate H | apply H2].
Qed.

(** A statement leaves the attribute [k] as it was. *)
Let keeps (k : string) (s : stmt) : Prop :=
  forall d, attrs (fst (s d)) !! k = attrs d !! k.

Lemma Set_keeps (k key : string) (v : value) (d : ResourceData) :
  key <> k \/ set_error key v <> None ->
  attrs (fst (Set_ _ _ _ _ meta d key v)) !! k = attrs d !! k.
Proof.
  subst set_error. intros H. unfold Set_.
  destruct (SetError _ _ _ _ key v) as [e | ]; [reflexivity | ].
  destruct H as [H | H]; [ | contradiction].
  cbn [fst attrs]. now apply lookup_insert_ne.
Qed.

Lemma set_unchecked_keeps (k key : string) (v : value) :
  key <> k \/ set_error key v <> None ->
  keeps k (set_unchecked _ _ _ _ meta key v).
Proof. intros H d. unfold set_unchecked. cbn [fst]. now apply Set_keeps. Qed.

Lemma set_checked_keeps (k key : string) (v : value) (text : string) :
  key <> k \/ set_error key v <> None ->
  keeps k (set_checked _ _ _ _ meta key v text).
Proof.
  intros H d. unfold set_checked.
  pose proof (Set_keeps k key v d H) as Hk.
  destruct (Set_ _ _ _ _ meta d key v) as [d' [e | ]]; exact Hk.
Qed.

Lemma seq_keeps (k : string) (s1 s2 : stmt) :
  keeps k s1 -> keeps k s2 -> keeps k (seq s1 s2).
Proof.
  intros H1 H2 d. unfold seq. pose proof (H1 d) as H.
  destruct (s1 d) as [d' [e | ]]; [exact H | ].
  cbn [fst] in H. rewrite <- H. apply H2.
Qed.

Ltac not_refused Hsdk :=
  match goal with
  | |- ?f ?key ?v = None =>
      destruct (f key v) eqn:E; [ | reflexivity];
      exfalso;
      assert (Hr : f key v <> None) by (rewrite E; discriminate);
      destruct (Hsdk key v Hr) as [Hk | [Hk | Hk]]; discriminate Hk
  end.

(** X13. The errors of the three unchecked Set calls are dropped: with a
    plugin SDK that refuses nothing but [arn], [role_arn] or
    [flow_definition_name], a Read whose lookup and tag listing succeed
    returns nil, and an attribute of the three that is refused keeps the
    value it had. *)
Theorem read_drops_unchecked_set_errors
    (st : Exec World) (fd : DescribeFlowDefinitionOutput.t)
    (tags : KeyValueTags) (w w' : World) :
  let id := Id (data _ st) in
  let arn := StringValue (DescribeFlowDefinitionOutput.FlowDefinitionArn fd) in
  FlowDefinitionByName _ _ conn id (remote _ st) = ((Some fd, None), w) ->
  SagemakerListTags _ _ conn arn w = ((tags, None), w') ->
  (forall key v, set_error key v <> None ->
     key = "arn" \/ key = "role_arn" \/ key = "flow_definition_name") ->
  exists d',
    Read st =
    Ok (None,
        {| data := d'; remote := w';
           calls := calls _ st ++ [FlowDefinitionByNameCall id; ListTagsCall arn] |}) /\
    forall k, In k ["arn"; "role_arn"; "flow_definition_name"] ->
      (forall v, set_error k v <> None) ->
      attrs d' !! k = attrs (data _ st) !! k.
Proof.
  intros id arn Hlookup Hlist Hsdk.
  assert (Hdef_ok : forall d,
            snd (read_set_definition _ _ _ _ meta EncodeJSONValue fd d) = None).
  { unfold read_set_definition.
    repeat (apply seq_ok; [intros ?; first [apply set_unchecked_ok
                                           | apply set_checked_ok] | ]);
      try (intros ?; apply set_checked_ok); not_refused Hsdk. }
  assert (Htags_ok : forall d,
            snd (read_set_tags _ _ _ _ meta tags d) = None).
  { unfold read_set_tags.
    apply seq_ok; intros ?; apply set_checked_ok; not_refused Hsdk. }
  assert (Hdef_keeps : forall k,
            In k ["arn"; "role_arn"; "flow_definition_name"] ->
            (forall v, set_error k v <> None) ->
            keeps k (read_set_definition _ _ _ _ meta EncodeJSONValue fd)).
  { intros k Hk Hrefused. unfold read_set_definition.
    repeat (apply seq_keeps;
            [first [apply set_unchecked_keeps | apply set_checked_keeps] | ]);
      try apply set_checked_keeps.
    all: match goal with
         | |- ?key <> ?k0 \/ _ =>
             destruct (String.eqb_spec key k0) as [<- | Hne];
               [right; apply Hrefused | left; exact Hne]
         end. }
  assert (Htags_keeps : forall k,
            In k ["arn"; "role_arn"; "flow_definition_name"] ->
            keeps k (read_set_tags _ _ _ _ meta tags)).
  { intros k Hk. unfold read_set_tags.
    apply seq_keeps; apply set_checked_keeps; left;
      cbn [In] in Hk; destruct Hk as [<- | [<- | [<- | []]]]; discriminate. }
  subst Read conn.
  unfold resourceAwsSagemakerFlowDefinitionRead, issue. fold id.
  rewrite Hlookup. cbv zeta. cbn [data remote calls NotFound].
  rewrite andb_false_r. fold arn.
  pose proof (Hdef_ok (data _ st)) as Hd.
  pose proof (fun k Hk Hr => Hdef_keeps k Hk Hr (data _ st)) as Hdk.
  destruct (read_set_definition _ _ _ _ _ _ fd (data _ st)) as [d e].
  cbn [snd] in Hd. subst e. cbn [fst] in Hdk.
  cbn [remote calls data with_data]. rewrite Hlist.
  cbn [remote calls data with_data].
  pose proof (Htags_ok d) as Ht.
  pose proof (fun k Hk => Htags_keeps k Hk d) as Htk.
  destruct (read_set_tags _ _ _ _ _ tags d) as [d' e].
  cbn [snd] in Ht. subst e. cbn [fst] in Htk.
  exists d'. split.
  - cbn [with_data data remote calls]. now rewrite <- List.app_assoc.
  - intros k Hk Hr. rewrite (Htk k Hk). now apply Hdk.
Qed.

(** X14. The calls of Create: one CreateFlowDefinition with the input built
    from the resource data, then lookups only; no second call that changes
    the remote resource. *)
Theorem create_issues_one_mutating_call
    (st st' : Exec World) (r : option error) :
  Create st = Ok (r, st') ->
  exists input issued,
    create_input _ _ _ _ meta DecodeJSONValue (data _ st) = Ok input /\
    calls _ st' =
      (calls _ st ++ CreateFlowDefinitionCall input :: issued)%list /\
    List.filter mutating issued = [].
Proof.
  subst Create. unfold resourceAwsSagemakerFlowDefinitionCreate, issue.
  destruct (create_input _ _ _ _ meta DecodeJSONValue (data _ st))
    as [input | ]; cbn [rbind]; [ | discriminate].
  destruct (CreateFlowDefinition _ _ _ input (remote _ st)) as [[e | ] w];
    cbv zeta; intros H.
  - injection H as _ <-. exists input, []. now repeat split.
  - apply Read_issues_lookups in H as [issued [Hc [Hm _]]].
    exists input, issued. cbn [calls with_data] in Hc.
    rewrite Hc, <- List.app_assoc. now repeat split.
Qed.

(** X15. The ID after Create, for a new resource: the name once the call
    has succeeded, whatever Read returns afterwards, not-found included;
    and the ID from before when the call has failed. *)
Theorem create_sets_id (st st' : Exec World) (r : option error)
    (input : CreateFlowDefinitionInput.t) :
  IsNewResource (data _ st) = true ->
  create_input _ _ _ _ meta DecodeJSONValue (data _ st) = Ok input ->
  Create st = Ok (r, st') ->
  match fst (CreateFlowDefinition _ _ conn input (remote _ st)) with
  | None =>
      Id (data _ st') =
      StringValue (CreateFlowDefinitionInput.FlowDefinitionName input)
  | Some _ => data _ st' = data _ st /\ r <> None
  end.
Proof.
  intros Hnew Hin. subst Create. unfold conn.
  unfold resourceAwsSagemakerFlowDefinitionCreate, issue.
  rewrite Hin. cbn [rbind].
  destruct (CreateFlowDefinition _ _ _ input (remote _ st)) as [[e | ] w];
    cbv zeta; cbn [fst]; intros H.
  - injection H as <- <-. split; [reflexivity | discriminate].
  - apply Read_data in H as [[HId _] | [Hnew' _]].
    + exact HId.
    + cbn [data with_data SetId IsNewResource] in Hnew'. congruence.
Qed.

End CrudMore.

Lemma read_keeps_identity_witness :
  match resourceAwsSagemakerFlowDefinitionRead _ _ _ _ InMemory.meta
          InMemory.failing_encode
          (InMemory.start InMemory.stored InMemory.created) with
  | Ok (r, st') =>
      Id (data _ st') = "review" /\
      prior (data _ st') = InMemory.config
  | Panic => False
  end.
Proof.
  destruct (resourceAwsSagemakerFlowDefinitionRead _ _ _ _ InMemory.meta
              InMemory.failing_encode
              (InMemory.start InMemory.stored InMemory.created))
    as [[r st'] | ] eqn:E.
  - destruct (read_keeps_identity _ _ _ _ InMemory.meta
                InMemory.failing_encode _ _ _ E)
      as [_ [Hprior [_ [HId | [_ [Hnf _]]]]]].
    + split; [exact HId | exact Hprior].
    + vm_compute in Hnf. discriminate Hnf.
  - apply (f_equal (fun x => match x with Panic => true | Ok _ => false end))
      in E.
    vm_compute in E. discriminate E.
Defined.

Lemma read_new_resource_reports_not_found_witness :
  resourceAwsSagemakerFlowDefinitionRead _ _ _ _ InMemory.meta
    InMemory.failing_encode
    (InMemory.start (SetId "review" InMemory.planned) [])
  = Ok (Some (Errorf "error reading SageMaker Flow Definition (review)"
                (NotFoundError "couldn't find resource")),
        {| data := SetId "review" InMemory.planned; remote := [];
           calls := [FlowDefinitionByNameCall "review"] |}).
Proof.
  exact (read_new_resource_reports_not_found _ _ _ _ InMemory.meta
           InMemory.failing_encode
           (InMemory.start (SetId "review" InMemory.planned) [])
           eq_refl (NotFoundError "couldn't find resource") eq_refl).
Defined.

Lemma read_call_sequence_witness :
  match resourceAwsSagemakerFlowDefinitionRead _ _ _ _ InMemory.meta
          InMemory.failing_encode
          (InMemory.start InMemory.stored InMemory.created) with
  | Ok (r, st') =>
      calls _ st' =
      [FlowDefinitionByNameCall "review";
       ListTagsCall "arn:aws:sagemaker:flow-definition/review"]
  | Panic => False
  end.
Proof.
  destruct (resourceAwsSagemakerFlowDefinitionRead _ _ _ _ InMemory.meta
              InMemory.failing_encode
              (InMemory.start InMemory.stored InMemory.created))
    as [[r st'] | ] eqn:E.
  - pose proof (read_call_sequence _ _ _ _ InMemory.meta
                  InMemory.failing_encode _ _ _ E) as H.
    cbv zeta in H. cbn [InMemory.start data remote Id InMemory.stored] in H.
    change (FlowDefinitionByName _ _ _ "review" InMemory.created)
      with ((Some (InMemory.described InMemory.input), @None error),
            InMemory.created) in H.
    cbv iota in H. destruct H as [H | [fd [Hfd [_ H]]]].
    + apply (f_equal (fun x => match x with
                               | Ok (_, s) => length (calls _ s)
                               | Panic => 0%nat
                               end)) in E.
      rewrite H in E. vm_compute in E. discriminate E.
    + injection Hfd as <-. exact H.
  - apply (f_equal (fun x => match x with Panic => true | Ok _ => false end))
      in E.
    vm_compute in E. discriminate E.
Defined.

Lemma read_drops_unchecked_set_errors_witness :
  exists d',
    resourceAwsSagemakerFlowDefinitionRead _ _ _ _ Refusing.meta
      InMemory.failing_encode
      (InMemory.start InMemory.stored InMemory.created)
    = Ok (None,
          {| data := d'; remote := InMemory.created;
             calls := [FlowDefinitionByNameCall "review";
                       ListTagsCall "arn:aws:sagemaker:flow-definition/review"] |}) /\
    attrs d' !! "arn" = attrs InMemory.stored !! "arn".
Proof.
  destruct (read_drops_unchecked_set_errors _ _ _ _ Refusing.meta
              InMemory.failing_encode
              (InMemory.start InMemory.stored InMemory.created)
              (InMemory.described InMemory.input) ∅
              InMemory.created InMemory.created eq_refl eq_refl)
    as [d' [H Hk]].
  - intros key v. cbn.
    destruct (String.eqb_spec key "arn") as [-> | Hne]; [now left | congruence].
  - exists d'. split; [exact H | ].
    apply Hk; [now left | ]. intros v. cbn. discriminate.
Defined.

Lemma create_issues_one_mutating_call_witness :
  match resourceAwsSagemakerFlowDefinitionCreate _ _ _ _ InMemory.meta
          InMemory.failing_decode InMemory.failing_encode
          (InMemory.start InMemory.planned []) with
  | Ok (r, st') =>
      List.filter mutating (calls _ st')
      = [CreateFlowDefinitionCall InMemory.input]
  | Panic => False
  end.
Proof.
  destruct (resourceAwsSagemakerFlowDefinitionCreate _ _ _ _ InMemory.meta
              InMemory.failing_decode InMemory.failing_encode
              (InMemory.start InMemory.planned []))
    as [[r st'] | ] eqn:E.
  - destruct (create_issues_one_mutating_call _ _ _ _ InMemory.meta
                InMemory.failing_decode InMemory.failing_encode _ _ _ E)
      as [input [issued [Hin [Hc Hm]]]].
    vm_compute in Hin. injection Hin as <-.
    rewrite Hc. cbn [InMemory.start calls app List.filter mutating].
    now rewrite Hm.
  - apply (f_equal (fun x => match x with Panic => true | Ok _ => false end))
      in E.
    vm_compute in E. discriminate E.
Defined.

Lemma create_sets_id_witness :
  match resourceAwsSagemakerFlowDefinitionCreate _ _ _ _ InMemory.meta
          InMemory.failing_decode InMemory.failing_encode
          (InMemory.start InMemory.planned []) with
  | Ok (r, st') => Id (data _ st') = "review"
  | Panic => False
  end.
Proof.
  destruct (resourceAwsSagemakerFlowDefinitionCreate _ _ _ _ InMemory.meta
              InMemory.failing_decode InMemory.failing_encode
              (InMemory.start InMemory.planned []))
    as [[r st'] | ] eqn:E.
  - assert (Hin : create_input _ _ _ _ InMemory.meta InMemory.failing_decode
                    (data _ (InMemory.start InMemory.planned []))
                  = Ok InMemory.input) by (vm_compute; reflexivity).
    exact (create_sets_id _ _ _ _ InMemory.meta InMemory.failing_decode
             InMemory.failing_encode (InMemory.start InMemory.planned [])
             st' r InMemory.input eq_refl Hin E).
  - apply (f_equal (fun x => match x with Panic => true | Ok _ => false end))
      in E.
    vm_compute in E. discriminate E.
Defined.

(** ** The keyword pattern *)

Abbreviation keyword_word := (Plus (Class alnum)).
Abbreviation keyword_more := (Star (Cat (Chr " ") (Plus (Class alnum)))).

Lemma space_not_alnum (c : ascii) : is_space c = true -> alnum c = false.
Proof.
  unfold is_space. intros H. apply Ascii.eqb_eq in H as <-. reflexivity.
Qed.

Lemma lang_Plus_Class (p : ascii -> bool) (s : string) :
  lang (Plus (Class p)) s <->
  exists c rest, s = String c rest /\ p c = true /\ all_chars p rest = true.
Proof.
  unfold Plus. split.
  - intros H. apply lang_Cat_inv in H as [s1 [s2 [-> [H1 H2]]]].
    apply lang_Class_inv in H1 as [c [-> Hc]].
    apply lang_Star_Class in H2.
    exists c, s2. now rewrite append_cons, append_nil_l.
  - intros [c [rest [-> [Hc Hrest]]]].
    change (String c rest) with (String c "" ++ rest).
    constructor; [now constructor | now apply lang_Star_Class].
Qed.

Lemma lang_keyword_block (c : ascii) (a : string) :
  alnum c = true -> all_chars alnum a = true ->
  lang (Cat (Chr " ") keyword_word) (String " " (String c a)).
Proof.
  intros Hc Ha. change (String " " (String c a)) with (" " ++ String c a).
  constructor; [constructor; reflexivity | ].
  apply lang_Plus_Class. now exists c, a.
Qed.

Lemma keyword_tail_cons_alnum (b : bool) (c : ascii) (s : string) :
  alnum c = true -> keyword_tail b (String c s) = keyword_tail true s.
Proof. intros H. cbn [keyword_tail]. now rewrite H. Qed.

Lemma keyword_tail_word (a t : string) :
  all_chars alnum a = true ->
  keyword_tail true (a ++ t) = keyword_tail true t.
Proof.
  induction a as [ | c a IH]; [reflexivity | ].
  cbn [all_chars]. rewrite andb_true_iff. intros [Hc Ha].
  rewrite append_cons, (keyword_tail_cons_alnum _ _ _ Hc). now apply IH.
Qed.

(** The automaton accepts every string of the language. *)
Lemma keyword_tail_complete (t : string) :
  lang keyword_more t -> keyword_tail true t = true.
Proof.
  intros H. remember keyword_more as r eqn:Er.
  induction H as [ | | | | | | r0 s1 s2 H1 _ H2 IH2]; try discriminate Er.
  - reflexivity.
  - injection Er as Er. subst r0.
    apply lang_Cat_inv in H1 as [sp [w [-> [Hsp Hw]]]].
    apply lang_Class_inv in Hsp as [c0 [-> Hc0]].
    apply lang_Plus_Class in Hw as [c [a [-> [Hc Ha]]]].
    rewrite append_cons, append_nil_l, !append_cons.
    cbn [keyword_tail].
    rewrite (space_not_alnum c0 Hc0).
    change (is_space c0) with (Ascii.eqb " " c0). rewrite Hc0. cbn [andb].
    rewrite Hc. rewrite (keyword_tail_word a s2 Ha). now apply IH2.
Qed.

(** The automaton accepts only strings of the language. *)
Lemma keyword_tail_sound (s : string) :
  (keyword_tail true s = true ->
   exists a t,
     s = a ++ t /\ all_chars alnum a = true /\ lang keyword_more t) /\
  (keyword_tail false s = true ->
   exists c a t,
     s = String c (a ++ t) /\ alnum c = true /\ all_chars alnum a = true /\
     lang keyword_more t).
Proof.
  induction s as [ | c s [IHready IHpending]].
  - split; [ | discriminate].
    intros _. exists "", "". repeat split. constructor.
  - cbn [keyword_tail]. destruct (alnum c) eqn:Ec.
    + split; intros H; apply IHready in H as [a [t [-> [Ha Ht]]]].
      * exists (String c a), t. rewrite append_cons. cbn [all_chars].
        rewrite Ec, Ha. now repeat split.
      * exists c, a, t. now repeat split.
    + destruct (is_space c) eqn:Es; cbn [andb]; [ | split; discriminate].
      split; [ | discriminate].
      intros H. apply IHpending in H as [c' [a [t [-> [Hc' [Ha Ht]]]]]].
      unfold is_space in Es. apply Ascii.eqb_eq in Es as <-.
      exists "", (String " " (String c' (a ++ t))).
      split; [reflexivity | split; [reflexivity | ]].
      change (String " " (String c' (a ++ t)))
        with (String " " (String c' a) ++ t).
      constructor; [now apply lang_keyword_block | assumption].
Qed.

Lemma MatchString_keyword_automaton (s : string) :
  MatchString task_keywords_regexp s = keyword_automaton s.
Proof.
  apply eq_true_iff_eq. rewrite MatchString_lang.
  unfold task_keywords_regexp. split.
  - intros H. apply lang_Cat_inv in H as [w [t [-> [Hw Ht]]]].
    apply lang_Plus_Class in Hw as [c [a [-> [Hc Ha]]]].
    rewrite append_cons. cbn [keyword_automaton].
    rewrite Hc, (keyword_tail_word a t Ha). now apply keyword_tail_complete.
  - destruct s as [ | c s]; [discriminate | ].
    cbn [keyword_automaton]. rewrite andb_true_iff. intros [Hc Ht].
    apply keyword_tail_sound in Ht as [a [t [-> [Ha Ht]]]].
    rewrite <- append_cons.
    constructor; [ | assumption].
    apply lang_Plus_Class. now exists c, a.
Qed.

(** The automaton in the words of the schema. *)
Lemma keyword_tail_shape (b : bool) (s : string) :
  keyword_tail b s =
  all_chars (fun c => alnum c || is_space c) s &&
  match s with EmptyString => b | String _ _ => last_char alnum s end &&
  no_double is_space s &&
  (b || negb (first_char is_space s)).
Proof.
  revert b. induction s as [ | c s IH]; intros b.
  - cbn. now destruct b.
  - cbn [keyword_tail all_chars last_char no_double first_char].
    rewrite (IH true), (IH false).
    destruct (alnum c) eqn:Ea, (is_space c) eqn:Es;
      try (apply space_not_alnum in Es; congruence);
      destruct b; cbn [andb orb negb];
      destruct s as [ | c' s]; cbn [all_chars first_char andb orb negb];
      rewrite ?andb_true_r, ?andb_false_r, ?orb_true_r, ?orb_false_r;
      try reflexivity.
    all: try (destruct (is_space c'); cbn [andb orb negb];
              rewrite ?andb_true_r, ?andb_false_r; reflexivity).
Qed.

Lemma keyword_automaton_shape (s : string) :
  keyword_automaton s = task_keyword_shape s.
Proof.
  unfold task_keyword_shape. destruct s as [ | c s]; [reflexivity | ].
  cbn [keyword_automaton first_char all_chars last_char no_double].
  rewrite keyword_tail_shape.
  destruct (alnum c) eqn:Ea; [ | reflexivity].
  assert (Es : is_space c = false).
  { destruct (is_space c) eqn:Es; [ | reflexivity].
    apply space_not_alnum in Es. congruence. }
  rewrite Es. cbn [andb orb negb].
  destruct s as [ | c' s]; [reflexivity | ].
  rewrite ?andb_true_r.
  destruct (all_chars _ (String c' s)), (last_char _ _), (no_double _ _);
    reflexivity.
Qed.

(** X16. The validator of the elements of [task_keywords] accepts a string
    exactly when its length is between 1 and 30 and it matches the pattern;
    and the pattern matches exactly the strings made of alphanumerics and
    spaces that start and end with an alphanumeric and have no two spaces
    in a row. *)
Theorem task_keywords_validation (s : string) :
  (accepts task_keywords_ValidateFunc (VString s) = true <->
   (1 <= String.length s <= 30)%nat /\
   MatchString task_keywords_regexp s = true) /\
  MatchString task_keywords_regexp s = task_keyword_shape s.
Proof.
  split.
  - unfold task_keywords_ValidateFunc.
    rewrite accepts_All2_string, andb_true_iff, accepts_StringLenBetween,
      accepts_StringMatch. reflexivity.
  - rewrite MatchString_keyword_automaton. apply keyword_automaton_shape.
Qed.

(** ** The destroy and exists checks *)

Section ServerCheckProperties.

Variable DescribedServer : Type.
Variable FindServerByID : string -> option DescribedServer * option error.

Let CheckDestroy := testAccCheckServerDestroy DescribedServer FindServerByID.
Let CheckExists := testAccCheckServerExists DescribedServer FindServerByID.

(** The lookup of the resource's ID reports not-found. *)
Let gone (rs : ResourceState) : Prop :=
  NotFound (snd (FindServerByID (rs_ID rs))) = true.

Lemma CheckDestroy_nil (visited : list ResourceState) :
  CheckDestroy visited = None <->
  Forall (fun rs => is_transfer_server rs = true -> gone rs) visited.
Proof.
  subst CheckDestroy gone. unfold is_transfer_server.
  induction visited as [ | rs rest IH]; cbn [testAccCheckServerDestroy].
  - split; [constructor | reflexivity].
  - rewrite List.Forall_cons_iff, <- IH.
    destruct (String.eqb (rs_Type rs) "aws_transfer_server"); cbn [negb].
    + destruct (FindServerByID (rs_ID rs)) as [output err]. cbn [snd].
      destruct (NotFound err) eqn:Enf.
      * split; [intros H; split; [reflexivity | exact H] | now intros [_ H]].
      * split.
        -- destruct err; discriminate.
        -- intros [H _]. specialize (H eq_refl). discriminate H.
    + split; [intros H; split; [discriminate | exact H] | now intros [_ H]].
Qed.

(** X17. The destroy check returns nil exactly when the lookup of every
    Transfer server among the resources reports not-found, resources of
    other types not being looked at; so whether it returns nil does not
    depend on the order in which the map of resources is visited. *)
Theorem destroy_check_nil_iff_all_gone (visited : list ResourceState) :
  (CheckDestroy visited = None <->
   Forall (fun rs => is_transfer_server rs = true -> gone rs) visited) /\
  (forall visited', Permutation visited visited' ->
     (CheckDestroy visited = None <-> CheckDestroy visited' = None)).
Proof.
  split; [apply CheckDestroy_nil | ].
  intros visited' Hperm. rewrite !CheckDestroy_nil.
  split; intros H; [rewrite <- Hperm | rewrite Hperm]; exact H.
Qed.

(** X18. A non-nil result of the destroy check is about a Transfer server
    among the resources whose lookup did not report not-found: it is the
    error of that lookup, or says that the server still exists when the
    lookup returned no error. *)
Theorem destroy_check_error (visited : list ResourceState) (e : error) :
  CheckDestroy visited = Some e ->
  exists rs,
    In rs visited /\ is_transfer_server rs = true /\ ~ gone rs /\
    match snd (FindServerByID (rs_ID rs)) with
    | Some e' => e = e'
    | None =>
        e = ErrorString ("Transfer Server " ++ rs_ID rs ++ " still exists")
    end.
Proof.
  subst CheckDestroy gone. unfold is_transfer_server.
  induction visited as [ | rs rest IH]; cbn [testAccCheckServerDestroy];
    [discriminate | ].
  destruct (String.eqb (rs_Type rs) "aws_transfer_server") eqn:Et; cbn [negb].
  - destruct (FindServerByID (rs_ID rs)) as [output err] eqn:Ef.
    destruct (NotFound err) eqn:Enf.
    + intros H. destruct (IH H) as [rs' [Hin H']].
      exists rs'. split; [now right | exact H'].
    + intros H. exists rs. split; [now left | ].
      split; [exact Et | ]. rewrite Ef. cbn [snd].
      split; [congruence | ].
      destruct err; now injection H as <-.
  - intros H. destruct (IH H) as [rs' [Hin H']].
    exists rs'. split; [now right | exact H'].
Qed.

(** X19. The two checks exclude each other: when the destroy check returns
    nil on the resources of a state, in whatever order, the exists check
    returns an error for every Transfer server of that state, and leaves
    what [v] points to as it was. *)
Theorem destroy_check_excludes_exists_check
    (resources : gmap string ResourceState) (visited : list ResourceState)
    (n : string) (rs : ResourceState) (v : DescribedServer) :
  Permutation visited (snd <$> map_to_list resources) ->
  CheckDestroy visited = None ->
  resources !! n = Some rs ->
  is_transfer_server rs = true ->
  exists e, CheckExists n v resources = Ok (Some e, v).
Proof.
  intros Hperm Hnil Hn Hts.
  apply CheckDestroy_nil in Hnil. rewrite Hperm in Hnil.
  rewrite List.Forall_forall in Hnil.
  assert (Hin : In rs (snd <$> map_to_list resources)).
  { apply list_elem_of_In, list_elem_of_fmap. exists (n, rs).
    split; [reflexivity | now apply elem_of_map_to_list]. }
  specialize (Hnil rs Hin Hts). subst gone CheckExists. cbn beta in Hnil.
  unfold testAccCheckServerExists. rewrite Hn.
  destruct (String.eqb (rs_ID rs) ""); [eauto | ].
  destruct (FindServerByID (rs_ID rs)) as [output [e | ]]; [eauto | ].
  discriminate Hnil.
Qed.

End ServerCheckProperties.

Lemma destroy_check_error_witness :
  exists rs,
    In rs ({| rs_Type := "aws_transfer_server"; rs_ID := "s-1" |}
           :: Servers.gone) /\
    is_transfer_server rs = true /\
    NotFound (snd (Servers.find (rs_ID rs))) <> true.
Proof.
  destruct (destroy_check_error unit Servers.find
              ({| rs_Type := "aws_transfer_server"; rs_ID := "s-1" |}
               :: Servers.gone)
              (ErrorString "Transfer Server s-1 still exists") eq_refl)
    as [rs [Hin [Hts [Hgone _]]]].
  exists rs. split; [exact Hin | split; [exact Hts | exact Hgone]].
Defined.

Lemma destroy_check_excludes_exists_check_witness :
  exists e,
    testAccCheckServerExists unit Servers.find "aws_transfer_server.test" tt
      Servers.state
    = Ok (Some e, tt).
Proof.
  apply (destroy_check_excludes_exists_check unit Servers.find Servers.state
           Servers.gone "aws_transfer_server.test"
           {| rs_Type := "aws_transfer_server"; rs_ID := "s-2" |} tt).
  - vm_compute. apply Permutation_refl.
  - reflexivity.
  - vm_compute. reflexivity.
  - reflexivity.
Defined.

(** ** The keyword validator on sample values *)

Example task_keyword_ok :
  accepts task_keywords_ValidateFunc (VString "image review 2") = true.
Proof. reflexivity. Qed.

Example task_keyword_two_spaces :
  accepts task_keywords_ValidateFunc (VString "image  review") = false.
Proof. reflexivity. Qed.

Example task_keyword_trailing_space :
  accepts task_keywords_ValidateFunc (VString "image ") = false.
Proof. reflexivity. Qed.
